(** * collecto.py: the Collecto stop sheet view

    A shallow embedding of [src/collecto.py]: the WFS lookup
    ([_fetch_collecto_feature_by_code]), the image download
    ([_download_image]), the ReportLab story ([_scaled_image_flowable],
    [_placeholder_box], [_build_pdf]) and the Django view ([info]).

    Conventions.
    - A Python [str] is a [string]; every character is read as the code
      point of the same number (0..255).
    - A Python [bytes] is a [list Byte.byte]; [Optional[bytes]] is an
      [option].
    - A Python [float] is a binary64 [float]; the arithmetic of the source
      is evaluated with the same rounding.
    - A decoded JSON document is a [value]; a [dict] is the list of its
      items in insertion order, and the first binding of a key is the one
      that counts.
    - A raised exception is the [Raise] case of [result]; network traffic
      is the [Get] node of [prog].
    - [requests] is the [Get] node together with [response] and
      [raise_for_status]; Django's refusal of a header value with a line
      break is [set_header]; what the view needs from Python's [repr],
      from Pillow and from ReportLab is the interface [Library]. *)

From Stdlib Require Import ZArith NArith List String Ascii Bool Lia Floats.
From Stdlib Require Import DecimalString.
Import ListNotations.

Set Warnings "-register-all,-inexact-float".

Local Open Scope list_scope.
Local Open Scope string_scope.

(* ================================================================= *)
(** ** Python strings *)

(** [str.isspace] on one character, for the code points below 256:
    TAB..CR, FS..US, SPACE, NEL and NBSP. *)
Definition isspace (c : ascii) : bool :=
  let n := N_of_ascii c in
  ((9 <=? n) && (n <=? 13) || (28 <=? n) && (n <=? 32)
   || (n =? 133) || (n =? 160))%N.

(** [s.lstrip()]: drop the leading run of whitespace. *)
Fixpoint lstrip (s : string) : string :=
  match s with
  | EmptyString => EmptyString
  | String c r => if isspace c then lstrip r else s
  end.

(** [s.rstrip()]: drop the trailing run of whitespace. *)
Fixpoint rstrip (s : string) : string :=
  match s with
  | EmptyString => EmptyString
  | String c r =>
      match rstrip r with
      | EmptyString => if isspace c then EmptyString else String c EmptyString
      | r' => String c r'
      end
  end.

(** [s.strip()]: CPython advances a left index over the leading
    whitespace, then a right index over the trailing whitespace. *)
Definition strip (s : string) : string := rstrip (lstrip s).

(** [str(n)] for an [int]. *)
Definition str_of_int (n : Z) : string := NilZero.string_of_int (Z.to_int n).

(** [s] holds a carriage return or a line feed. *)
Fixpoint has_newline (s : string) : bool :=
  match s with
  | EmptyString => false
  | String c r =>
      Ascii.eqb c "010"%char || Ascii.eqb c "013"%char || has_newline r
  end.

(** The double quote character. *)
Definition dquote : string := String "034"%char EmptyString.

(** The one-character strings of [s], as [iter(s)] yields them. *)
Fixpoint chars (s : string) : list string :=
  match s with
  | EmptyString => []
  | String c r => String c EmptyString :: chars r
  end.

(* ================================================================= *)
(** ** Exceptions and results *)

(** The exception classes the view can meet.  [HTTPError] is
    [requests.HTTPError]; the view tells it apart from every other
    [Exception]. *)
Inductive exn_class : Type :=
| HTTPError | ConnectionError | Timeout | JSONDecodeError
| AttributeError | TypeError | ValueError | BadHeaderError | OtherException.

(** An exception: its class and [str(e)]. *)
Record exn : Type := Exn { exn_cls : exn_class; exn_str : string }.

Inductive result (A : Type) : Type :=
| Ok (a : A)
| Raise (e : exn).
Arguments Ok {A} a.
Arguments Raise {A} e.

Definition rbind {A B} (r : result A) (k : A -> result B) : result B :=
  match r with
  | Ok a => k a
  | Raise e => Raise e
  end.

Declare Scope result_scope.
Delimit Scope result_scope with result.
Notation "x <- r ;; k" := (rbind r (fun x => k))
  (at level 61, r at next level, right associativity) : result_scope.

Notation "r ;; k" := (rbind r (fun _ => k))
  (at level 61, right associativity) : result_scope.

Definition is_HTTPError (e : exn) : bool :=
  match exn_cls e with HTTPError => true | _ => false end.

(* ================================================================= *)
(** ** Python values *)

(** What [json.loads] builds. *)
Inductive value : Type :=
| PyNone
| PyBool (b : bool)
| PyInt (n : Z)
| PyFloat (x : float)
| PyStr (s : string)
| PyList (items : list value)
| PyDict (fields : list (string * value)).

Definition dict : Type := list (string * value).

(** [type(v).__name__]. *)
Definition type_name (v : value) : string :=
  match v with
  | PyNone => "NoneType"
  | PyBool _ => "bool"
  | PyInt _ => "int"
  | PyFloat _ => "float"
  | PyStr _ => "str"
  | PyList _ => "list"
  | PyDict _ => "dict"
  end.

(** [bool(v)]. *)
Definition truthy (v : value) : bool :=
  match v with
  | PyNone => false
  | PyBool b => b
  | PyInt n => negb (n =? 0)%Z
  | PyFloat x => negb (x =? 0)%float
  | PyStr s => negb (s =? "")
  | PyList l => match l with [] => false | _ => true end
  | PyDict d => match d with [] => false | _ => true end
  end.

(** [a or b]. *)
Definition py_or (a b : value) : value := if truthy a then a else b.

(** [d[k]] when present. *)
Fixpoint lookup (k : string) (d : dict) : option value :=
  match d with
  | [] => None
  | (k', v) :: rest => if k' =? k then Some v else lookup k rest
  end.

(** [d.get(k, default)] on a [dict]. *)
Definition dict_get (d : dict) (k : string) (default : value) : value :=
  match lookup k d with
  | Some v => v
  | None => default
  end.

(** [v.get(k, default)] on any value: only a [dict] has the method. *)
Definition py_get (v : value) (k : string) (default : value) : result value :=
  match v with
  | PyDict d => Ok (dict_get d k default)
  | _ => Raise (Exn AttributeError
                  ("'" ++ type_name v ++ "' object has no attribute 'get'"))
  end.

(** The items a [for] loop over [v] visits: the elements of a list, the
    keys of a dict, the characters of a string; anything else is not
    iterable. *)
Definition py_iter (v : value) : result (list value) :=
  match v with
  | PyList l => Ok l
  | PyDict d => Ok (map (fun kv => PyStr (fst kv)) d)
  | PyStr s => Ok (map PyStr (chars s))
  | _ => Raise (Exn TypeError ("'" ++ type_name v ++ "' object is not iterable"))
  end.

(** [if b:] for an [Optional[bytes]]: [None] and [b''] are false. *)
Definition bytes_truthy (b : option (list Byte.byte)) : bool :=
  match b with
  | Some (_ :: _) => true
  | _ => false
  end.

(* ================================================================= *)
(** ** The network *)

(** One call [requests.get(url, params=params, timeout=timeout)]. *)
Record request : Type := Request {
  req_url : string;
  req_params : list (string * string);
  req_timeout : Z
}.

(** A [requests.Response]: status line, final URL, raw body, and what
    [r.json()] gives on that body (it raises when the body is not a JSON
    document). *)
Record response : Type := Response {
  status_code : Z;
  reason : string;
  url : string;
  content : list Byte.byte;
  json : result value
}.

(** A computation that may call [requests.get], may raise, and
    otherwise returns.  The continuation of [Get] receives what the call
    produced: a response, or the exception [requests] raised (connection
    failure, timeout, ...). *)
Inductive prog (A : Type) : Type :=
| Return (a : A)
| Throw (e : exn)
| Get (rq : request) (k : result response -> prog A).
Arguments Return {A} a.
Arguments Throw {A} e.
Arguments Get {A} rq k.

Fixpoint bind {A B} (p : prog A) (k : A -> prog B) : prog B :=
  match p with
  | Return a => k a
  | Throw e => Throw e
  | Get rq c => Get rq (fun r => bind (c r) k)
  end.

(** [try: p  except Exception as e: h e]. *)
Fixpoint try_except {A} (p : prog A) (h : exn -> prog A) : prog A :=
  match p with
  | Return a => Return a
  | Throw e => h e
  | Get rq c => Get rq (fun r => try_except (c r) h)
  end.

(** A pure step that may raise. *)
Definition lift {A} (r : result A) : prog A :=
  match r with
  | Ok a => Return a
  | Raise e => Throw e
  end.

Definition requests_get (rq : request) : prog response :=
  Get rq lift.

Declare Scope prog_scope.
Delimit Scope prog_scope with prog.
Notation "x <- p ;; k" := (bind p (fun x => k))
  (at level 61, p at next level, right associativity) : prog_scope.
Notation "p ;; k" := (bind p (fun _ => k))
  (at level 61, right associativity) : prog_scope.

(** The outside world: what the [n]-th call answers, given the calls made
    before it (oldest first). *)
Definition network : Type := list request -> request -> result response.

(** Run [p] against [net] after the calls [hist]: the outcome and the
    calls [p] made, in order. *)
Fixpoint run {A} (net : network) (hist : list request) (p : prog A)
  : result A * list request :=
  match p with
  | Return a => (Ok a, [])
  | Throw e => (Raise e, [])
  | Get rq k =>
      let (r, tr) := run net (hist ++ [rq])%list (k (net hist rq)) in
      (r, rq :: tr)
  end.

(** [Response.raise_for_status]: statuses 400..599 raise [HTTPError]. *)
Definition http_error_msg (r : response) : option string :=
  let st := status_code r in
  if (400 <=? st)%Z && (st <? 500)%Z then
    Some (str_of_int st ++ " Client Error: " ++ reason r ++ " for url: " ++ url r)
  else if (500 <=? st)%Z && (st <? 600)%Z then
    Some (str_of_int st ++ " Server Error: " ++ reason r ++ " for url: " ++ url r)
  else None.

Definition raise_for_status (r : response) : result unit :=
  match http_error_msg r with
  | Some msg => Raise (Exn HTTPError msg)
  | None => Ok tt
  end.

(* ================================================================= *)
(** ** ReportLab objects *)

(** A [ParagraphStyle(name=..., parent=styles[...], ...)]. *)
Record ParagraphStyle : Type := {
  style_name : string;
  style_parent : string;
  fontName : string;
  fontSize : Z;
  spaceAfter : option Z;
  leading : option Z
}.

Inductive cmd_arg : Type :=
| Color (name : string)
| Num (n : Z)
| Word (s : string).

(** One [TableStyle] command [(name, (c0, r0), (c1, r1), args...)]. *)
Record style_cmd : Type := StyleCmd {
  cmd_name : string;
  cmd_start : Z * Z;
  cmd_stop : Z * Z;
  cmd_args : list cmd_arg
}.

(** The flowables the view puts in its story. *)
Inductive flowable : Type :=
| Paragraph (text : string) (style : ParagraphStyle)
| Spacer (width height : Z)
| Image (stream : list Byte.byte) (width height : float)
| Table (data : list (list string)) (colWidths rowHeights : list float)
        (style : list style_cmd)
| KeepTogether (flowables : list flowable).

Record SimpleDocTemplate : Type := {
  pagesize : float * float;
  leftMargin : float;
  rightMargin : float;
  topMargin : float;
  bottomMargin : float;
  title : string
}.

(** The moment of a call, which a PDF writer may stamp into its output. *)
Definition clock : Type := Z.

(** [int] to [float], correctly rounded, as [float(n)] and the mixed
    arithmetic [n * x] do.  (Beyond the range of a float Python raises
    [OverflowError]; no image has such a side.) *)
Definition float_of_int (n : Z) : float :=
  SF2Prim (binary_normalize prec emax n 0 false).

(* ================================================================= *)
(** ** What the view uses and does not define *)

Class Library : Type := {
  (** [repr(v)], which is [str(v)] for a float, a list and a dict. *)
  py_repr : value -> string;
  (** [ImageReader(io.BytesIO(b)).getSize()]: the pixel size Pillow reads
      from the header, or the exception raised on the way. *)
  getSize : list Byte.byte -> result (Z * Z);
  (** The markup parser [Paragraph(text, style)] runs when it is built. *)
  parse_markup : string -> result unit;
  (** [doc.build(story)] followed by [buffer.getvalue()]. *)
  doc_build : clock -> SimpleDocTemplate -> list flowable ->
              result (list Byte.byte);
  (** [reportlab.lib.units.cm] and [reportlab.lib.pagesizes.A4]. *)
  cm : float;
  A4 : float * float
}.

(** What Django sends back. *)
Inductive HttpResponse : Type :=
| HttpResponseOk (body : list Byte.byte) (content_type : string)
                 (content_disposition : string)
| HttpResponseNotFound (body : string)
| HttpResponseServerError (body : string).

(* ================================================================= *)
(** ** The module *)

Section Collecto.
Context {L : Library}.

(** [str(v)]; an f-string field [{v}] and [str.format] give the same. *)
Definition py_str (v : value) : string :=
  match v with
  | PyStr s => s
  | PyNone => "None"
  | PyBool true => "True"
  | PyBool false => "False"
  | PyInt n => str_of_int n
  | _ => py_repr v
  end.

Definition SERVER_URL : string := "http://localhost".

Definition WFS_URL : string :=
  "https://data.mobility.brussels/geoserver/bm_public_transport/wfs".

(** [WMS_PRINT_URL.format(SERVER_URL=SERVER_URL, gid=gid)]. *)
Definition WMS_PRINT_URL (gid : value) : string :=
  SERVER_URL ++ ":5555/"
  ++ "?SERVICE=WMS&VERSION=1.3.0&REQUEST=GetPrint"
  ++ "&MAP=/data/collecto.qgz&TEMPLATE=stoplayout"
  ++ "&FORMAT=png&CRS=EPSG:3812&DPI=50&ATLAS_PK=" ++ py_str gid.

Definition LEFT_RIGHT_MARGIN : float := (2 * cm)%float.
Definition TOP_BOTTOM_MARGIN : float := (1.6 * cm)%float.
Definition TITLE_FONT_SIZE : Z := 20.
Definition BODY_FONT_SIZE : Z := 11.
Definition FIRST_IMAGE_WIDTH_RATIO : float := 1.0%float.
Definition SECOND_IMAGE_WIDTH_RATIO : float := 0.66%float.
Definition FIRST_IMAGE_PLACEHOLDER_HEIGHT : float := (8 * cm)%float.
Definition SECOND_IMAGE_PLACEHOLDER_HEIGHT : float := (6 * cm)%float.

(** *** _fetch_collecto_feature_by_code *)

Definition wfs_request : request :=
  Request WFS_URL
    [("service", "wfs"); ("version", "1.1.0"); ("request", "GetFeature");
     ("typeName", "bm_public_transport:Collecto_stops");
     ("outputFormat", "json"); ("srsName", "EPSG:3812")]
    20.

(** The [for f in ...] loop over the items still to visit. *)
Fixpoint scan_features (items : list value) (stop_code : string)
  : result (option value) :=
  match items with
  | [] => Ok None
  | f :: rest =>
      (p <- py_get f "properties" PyNone ;;
       let props := py_or p (PyDict []) in
       c <- py_get props "code_stop" (PyStr "") ;;
       if strip (py_str c) =? strip (py_str (PyStr stop_code))
       then Ok (Some f)
       else scan_features rest stop_code)%result
  end.

Definition _fetch_collecto_feature_by_code (stop_code : string)
  : prog (option value) :=
  (r <- requests_get wfs_request ;;
   lift (raise_for_status r) ;;
   data <- lift (json r) ;;
   feats <- lift (py_get data "features" PyNone) ;;
   items <- lift (py_iter (py_or feats (PyList []))) ;;
   lift (scan_features items stop_code))%prog.

(** *** _download_image *)

Definition _download_image (url : string) : prog (option (list Byte.byte)) :=
  try_except
    (res <- requests_get (Request url [] 20) ;;
     lift (raise_for_status res) ;;
     Return (Some (content res)))%prog
    (fun _ => Return None).

(** *** _scaled_image_flowable *)

Definition _scaled_image_flowable (img_bytes : list Byte.byte)
    (target_width_pts : float) : result (flowable * float * float) :=
  (size <- getSize img_bytes ;;
   let (iw, ih) := size : Z * Z in
   if (iw =? 0)%Z || (ih =? 0)%Z then
     Raise (Exn ValueError "Invalid image dimensions (0 x 0)")
   else
     let w := if negb (target_width_pts =? 0)%float
                 && (0 <? target_width_pts)%float
              then target_width_pts else float_of_int iw in
     let ratio := (w / float_of_int iw)%float in
     let h := (float_of_int ih * ratio)%float in
     Ok (Image img_bytes w h, w, h))%result.

(** *** _placeholder_box *)

Definition _placeholder_box (width_pts height_pts : float) (label : string)
  : flowable :=
  let all (name : string) (args : list cmd_arg) :=
    StyleCmd name (0, 0)%Z (-1, -1)%Z args in
  Table [[label]] [width_pts] [height_pts]
    [all "BACKGROUND" [Color "lightgrey"];
     all "BOX" [Num 1; Color "grey"];
     all "VALIGN" [Word "MIDDLE"];
     all "ALIGN" [Word "CENTER"];
     all "TEXTCOLOR" [Color "darkgray"];
     all "FONTSIZE" [Num 11]].

(** *** _build_pdf *)

Definition TitleBig : ParagraphStyle :=
  {| style_name := "TitleBig"; style_parent := "Title";
     fontName := "Helvetica-Bold"; fontSize := TITLE_FONT_SIZE;
     spaceAfter := Some 10%Z; leading := None |}.

Definition H2 : ParagraphStyle :=
  {| style_name := "H2"; style_parent := "Heading2";
     fontName := "Helvetica-Bold"; fontSize := 14;
     spaceAfter := Some 6%Z; leading := None |}.

Definition Body : ParagraphStyle :=
  {| style_name := "Body"; style_parent := "BodyText";
     fontName := "Helvetica"; fontSize := BODY_FONT_SIZE;
     spaceAfter := None; leading := Some (BODY_FONT_SIZE + 3)%Z |}.

(** [Paragraph(text, style)]. *)
Definition new_Paragraph (text : string) (style : ParagraphStyle)
  : result flowable :=
  (parse_markup text ;; Ok (Paragraph text style))%result.

(** The bytes behind a true [Optional[bytes]]. *)
Definition the_bytes (b : option (list Byte.byte)) : list Byte.byte :=
  match b with Some x => x | None => [] end.

(** [_build_pdf] up to, and without, [doc.build(story)]: the document
    template and the story. *)
Definition _build_pdf_story (props : value)
    (img1_bytes img2_bytes : option (list Byte.byte))
  : result (SimpleDocTemplate * list flowable) :=
  (title_code <- py_get props "code_stop" (PyStr "") ;;
   let doc :=
     {| pagesize := A4;
        leftMargin := LEFT_RIGHT_MARGIN; rightMargin := LEFT_RIGHT_MARGIN;
        topMargin := TOP_BOTTOM_MARGIN; bottomMargin := TOP_BOTTOM_MARGIN;
        title := "Collecto " ++ py_str title_code |} in
   let usable_width := (fst A4 - leftMargin doc - rightMargin doc)%float in
   let story : list flowable := [] in
   (* Title *)
   code_stop <- py_get props "code_stop" (PyStr "") ;;
   para <- new_Paragraph ("COLLECTO " ++ py_str code_stop) TitleBig ;;
   let story := (story ++ [para])%list in
   let story := (story ++ [Spacer 1 6])%list in
   (* First image (map print) *)
   let img1_target_w := (usable_width * FIRST_IMAGE_WIDTH_RATIO)%float in
   let story :=
     if bytes_truthy img1_bytes then
       match _scaled_image_flowable (the_bytes img1_bytes) img1_target_w with
       | Ok (img1_flow, _, _) => (story ++ [img1_flow])%list
       | Raise _ =>
           (story ++ [_placeholder_box img1_target_w
                        FIRST_IMAGE_PLACEHOLDER_HEIGHT
                        "Map image unavailable"])%list
       end
     else
       (story ++ [_placeholder_box img1_target_w
                    FIRST_IMAGE_PLACEHOLDER_HEIGHT
                    "Map image unavailable"])%list in
   let story := (story ++ [Spacer 1 12])%list in
   (* Names line *)
   name_fr <- py_get props "name_fr" (PyStr "") ;;
   name_nl <- py_get props "name_nl" (PyStr "") ;;
   para <- new_Paragraph (py_str name_fr ++ " - " ++ py_str name_nl) H2 ;;
   let story := (story ++ [para])%list in
   let story := (story ++ [Spacer 1 6])%list in
   (* Address FR and NL *)
   housenr <- py_get props "housenr" (PyStr "") ;;
   road_fr <- py_get props "road_fr" (PyStr "") ;;
   mu_fr <- py_get props "mu_fr" (PyStr "") ;;
   road_nl <- py_get props "road_nl" (PyStr "") ;;
   mu_nl <- py_get props "mu_nl" (PyStr "") ;;
   para <- new_Paragraph
             ("<b>Adresse :</b> " ++ py_str housenr ++ ", " ++ py_str road_fr
              ++ " - " ++ py_str mu_fr) Body ;;
   let story := (story ++ [para])%list in
   let story := (story ++ [Spacer 1 2])%list in
   para <- new_Paragraph
             ("<b>Adres :</b> " ++ py_str road_nl ++ " " ++ py_str housenr
              ++ " - " ++ py_str mu_nl) Body ;;
   let story := (story ++ [para])%list in
   let story := (story ++ [Spacer 1 10])%list in
   (* Second image (stop photo) *)
   let img2_target_w := (usable_width * SECOND_IMAGE_WIDTH_RATIO)%float in
   let story :=
     if bytes_truthy img2_bytes then
       match _scaled_image_flowable (the_bytes img2_bytes) img2_target_w with
       | Ok (img2_flow, _, _) => (story ++ [KeepTogether [img2_flow]])%list
       | Raise _ =>
           (story ++ [_placeholder_box img2_target_w
                        SECOND_IMAGE_PLACEHOLDER_HEIGHT
                        "Stop photo unavailable"])%list
       end
     else
       (story ++ [_placeholder_box img2_target_w
                    SECOND_IMAGE_PLACEHOLDER_HEIGHT
                    "Stop photo unavailable"])%list in
   Ok (doc, story))%result.

Definition _build_pdf (now : clock) (props : value)
    (img1_bytes img2_bytes : option (list Byte.byte))
  : result (list Byte.byte) :=
  (ds <- _build_pdf_story props img1_bytes img2_bytes ;;
   doc_build now (fst ds) (snd ds))%result.

(** *** info *)

(** Run [p] and hand back its outcome, raised exception included. *)
Definition attempt {A} (p : prog A) : prog (result A) :=
  try_except (a <- p ;; Return (Ok a))%prog (fun e => Return (Raise e)).

(** [bool(feature)] for an [Optional] feature. *)
Definition found (feature : option value) : bool :=
  match feature with
  | Some f => truthy f
  | None => false
  end.

Definition is_None (v : value) : bool :=
  match v with PyNone => true | _ => false end.

(** [response[name] = value]: Django refuses a header value that holds
    a line break, and raises [BadHeaderError]. *)
Definition set_header (value : string) : result unit :=
  if has_newline value then
    Raise (Exn BadHeaderError
             ("Header values can't contain newlines (got "
              ++ py_repr (PyStr value) ++ ")"))
  else Ok tt.

(** The view, for a GET request, called at the moment [now]. *)
Definition info (now : clock) (stop : string) : prog HttpResponse :=
  (* 1) Fetch feature by code_stop *)
  (fetched <- attempt (_fetch_collecto_feature_by_code stop) ;;
   match fetched with
   | Raise e =>
       if is_HTTPError e
       then Return (HttpResponseServerError ("WFS error: " ++ exn_str e))
       else Return (HttpResponseServerError
                      ("Could not query WFS: " ++ exn_str e))
   | Ok feature =>
       if negb (found feature) then
         Return (HttpResponseNotFound
                   ("Collecto stop with code_stop='" ++ stop
                    ++ "' not found in the dataset."))
       else
         let feature := match feature with Some f => f | None => PyNone end in
         p <- lift (py_get feature "properties" PyNone) ;;
         let props := py_or p (PyDict []) in
         (* 2) Resolve images *)
         gid <- lift (py_get props "gid" PyNone) ;;
         image_stop <- lift (py_get props "image_stop" PyNone) ;;
         img1_bytes <-
           (if negb (is_None gid)
            then _download_image (WMS_PRINT_URL gid)
            else Return None) ;;
         img2_bytes <-
           (if truthy image_stop
            then _download_image
                   ("https://data.mobility.brussels/media/"
                    ++ py_str image_stop)
            else Return None) ;;
         (* 3) Build PDF *)
         match _build_pdf now props img1_bytes img2_bytes with
         | Raise e =>
             Return (HttpResponseServerError
                       ("Failed to generate PDF: " ++ exn_str e))
         | Ok pdf_bytes =>
             name_code <- lift (py_get props "code_stop" (PyStr stop)) ;;
             let filename := "collecto_" ++ py_str name_code ++ ".pdf" in
             let disposition :=
               "inline; filename=" ++ dquote ++ filename ++ dquote in
             lift (set_header disposition) ;;
             Return (HttpResponseOk pdf_bytes "application/pdf" disposition)
         end
   end)%prog.

End Collecto.

(* ================================================================= *)
(** ** Vocabulary of the specification *)

(** Every character of [s] is whitespace. *)
Fixpoint blank (s : string) : bool :=
  match s with
  | EmptyString => true
  | String c r => isspace c && blank r
  end.

Definition first_char (s : string) : option ascii :=
  match s with
  | EmptyString => None
  | String c _ => Some c
  end.

Fixpoint last_char (s : string) : option ascii :=
  match s with
  | EmptyString => None
  | String c EmptyString => Some c
  | String _ r => last_char r
  end.

(** [t] neither starts nor ends with whitespace. *)
Definition tight (t : string) : Prop :=
  (forall c, first_char t = Some c -> isspace c = false) /\
  (forall c, last_char t = Some c -> isspace c = false).

(** [t] is [s] with the surrounding whitespace trimmed on both sides. *)
Definition trims_to (s t : string) : Prop :=
  exists l r, s = l ++ t ++ r /\ blank l = true /\ blank r = true /\ tight t.

(** No character of [s] is whitespace. *)
Fixpoint spaceless (s : string) : bool :=
  match s with
  | EmptyString => true
  | String c r => negb (isspace c) && spaceless r
  end.

(** A value that is not a string and whose [str] is spelled out here:
    [None], a boolean, an integer. *)
Definition plain (v : value) : Prop :=
  match v with
  | PyNone | PyBool _ | PyInt _ => True
  | _ => False
  end.

Definition not_a_string (v : value) : Prop :=
  match v with
  | PyStr _ => False
  | _ => True
  end.

(** Two strings are equal after trimming. *)
Definition equal_after_trim (a b : string) : Prop :=
  exists t, trims_to a t /\ trims_to b t.

(** The attribute mapping of a GeoJSON feature: an object whose
    ["properties"] member is an object, or null, or missing. *)
Definition properties_of (f : value) : option dict :=
  match f with
  | PyDict fields =>
      match lookup "properties" fields with
      | None | Some PyNone => Some []
      | Some (PyDict d) => Some d
      | Some _ => None
      end
  | _ => None
  end.

Definition is_feature (f : value) : Prop :=
  exists d, properties_of f = Some d.



Section Words.
Context {L : Library}.

(** An attribute as text, the empty string when it is missing. *)
Definition attr (d : dict) (k : string) : string :=
  py_str (dict_get d k (PyStr "")).

(** The feature's [code_stop] and the requested code are equal after
    trimming. *)
Definition same_code (f : value) (code : string) : Prop :=
  exists d, properties_of f = Some d /\
            equal_after_trim (attr d "code_stop") code.

(** The feature service answered the lookup with the collection
    [feats]. *)
Definition wfs_returns (net : network) (feats : list value) : Prop :=
  exists r fields,
    net [] wfs_request = Ok r /\ http_error_msg r = None /\
    json r = Ok (PyDict fields) /\
    lookup "features" fields = Some (PyList feats).

(** The lookup failed: [requests.get] raised (connection error,
    timeout), the status was an error status (400..599), the body was not
    a JSON document, the JSON document was not an object, or its
    ["features"] was true and could not be iterated. *)
Inductive query_failed (net : network) : exn -> Prop :=
| network_error e :
    net [] wfs_request = Raise e -> query_failed net e
| error_status r msg :
    net [] wfs_request = Ok r -> http_error_msg r = Some msg ->
    query_failed net (Exn HTTPError msg)
| malformed_body r e :
    net [] wfs_request = Ok r -> http_error_msg r = None ->
    json r = Raise e -> query_failed net e
| not_an_object r data :
    net [] wfs_request = Ok r -> http_error_msg r = None ->
    json r = Ok data -> (forall fields, data <> PyDict fields) ->
    query_failed net
      (Exn AttributeError
         ("'" ++ type_name data ++ "' object has no attribute 'get'"))
| features_not_iterable r fields e :
    net [] wfs_request = Ok r -> http_error_msg r = None ->
    json r = Ok (PyDict fields) ->
    truthy (dict_get fields "features" PyNone) = true ->
    py_iter (dict_get fields "features" PyNone) = Raise e ->
    query_failed net e.

(** The page, block by block. *)
Definition template (d : dict) : SimpleDocTemplate :=
  {| pagesize := A4;
     leftMargin := LEFT_RIGHT_MARGIN; rightMargin := LEFT_RIGHT_MARGIN;
     topMargin := TOP_BOTTOM_MARGIN; bottomMargin := TOP_BOTTOM_MARGIN;
     title := "Collecto " ++ attr d "code_stop" |}.

Definition title_text (d : dict) : string := "COLLECTO " ++ attr d "code_stop".

Definition names_text (d : dict) : string :=
  attr d "name_fr" ++ " - " ++ attr d "name_nl".

Definition address_fr (d : dict) : string :=
  "<b>Adresse :</b> " ++ attr d "housenr" ++ ", " ++ attr d "road_fr"
  ++ " - " ++ attr d "mu_fr".

Definition address_nl (d : dict) : string :=
  "<b>Adres :</b> " ++ attr d "road_nl" ++ " " ++ attr d "housenr"
  ++ " - " ++ attr d "mu_nl".

Definition layout (d : dict) (block1 block2 : flowable) : list flowable :=
  [Paragraph (title_text d) TitleBig; Spacer 1 6;
   block1; Spacer 1 12;
   Paragraph (names_text d) H2; Spacer 1 6;
   Paragraph (address_fr d) Body; Spacer 1 2;
   Paragraph (address_nl d) Body; Spacer 1 10;
   block2].

Definition usable_width : float :=
  (fst A4 - LEFT_RIGHT_MARGIN - LEFT_RIGHT_MARGIN)%float.

Definition map_placeholder : flowable :=
  _placeholder_box (usable_width * FIRST_IMAGE_WIDTH_RATIO)%float
    FIRST_IMAGE_PLACEHOLDER_HEIGHT "Map image unavailable".

Definition photo_placeholder : flowable :=
  _placeholder_box (usable_width * SECOND_IMAGE_WIDTH_RATIO)%float
    SECOND_IMAGE_PLACEHOLDER_HEIGHT "Stop photo unavailable".

(** What [requests.get] produced, as the image bytes kept from it. *)
Definition downloaded (r : result response) : option (list Byte.byte) :=
  match r with
  | Raise _ => None
  | Ok res =>
      match http_error_msg res with
      | Some _ => None
      | None => Some (content res)
      end
  end.

(** The block put in the story for an image: the scaled image, wrapped
    by [wrap], when the bytes are there and can be scaled, and the
    placeholder otherwise. *)
Definition image_or (img : option (list Byte.byte)) (target : float)
    (wrap : flowable -> flowable) (placeholder : flowable) : flowable :=
  if bytes_truthy img then
    match _scaled_image_flowable (the_bytes img) target with
    | Ok (flow, _, _) => wrap flow
    | Raise _ => placeholder
    end
  else placeholder.

(** The header value that names the file: [code_stop] as stored, the
    requested code when the feature has none. *)
Definition disposition_of (d : dict) (stop : string) : string :=
  "inline; filename=" ++ dquote
  ++ ("collecto_" ++ py_str (dict_get d "code_stop" (PyStr stop)) ++ ".pdf")
  ++ dquote.

(** The outcome of the view once the composer has run: a server error
    when the composer raised; otherwise the answer 200 with the PDF,
    unless Django refuses the header, whose exception then leaves the
    view. *)
Definition view_answer (d : dict) (stop : string)
    (built : result (list Byte.byte)) : result HttpResponse :=
  match built with
  | Raise e =>
      Ok (HttpResponseServerError ("Failed to generate PDF: " ++ exn_str e))
  | Ok pdf_bytes =>
      (set_header (disposition_of d stop) ;;
       Ok (HttpResponseOk pdf_bytes "application/pdf" (disposition_of d stop)))%result
  end.


(** The page with a placeholder in each image slot. *)
Definition placeholder_page (d : dict) : list flowable :=
  layout d map_placeholder photo_placeholder.

(** The markup parser accepts the four paragraphs of the page. *)
Definition texts_accepted (d : dict) : Prop :=
  parse_markup (title_text d) = Ok tt /\
  parse_markup (names_text d) = Ok tt /\
  parse_markup (address_fr d) = Ok tt /\
  parse_markup (address_nl d) = Ok tt.

End Words.

Definition is_placeholder (f : flowable) : bool :=
  match f with
  | Table _ _ _ _ => true
  | _ => false
  end.

Fixpoint has_image (f : flowable) : bool :=
  match f with
  | Image _ _ _ => true
  | KeepTogether fs => existsb has_image fs
  | _ => false
  end.

(** The label of a placeholder box. *)
Definition label_of (f : flowable) : option string :=
  match f with
  | Table [[label]] _ _ _ => Some label
  | _ => None
  end.

(* ================================================================= *)
(** ** A small library to run the view on *)

(** A stand-in image format: two header bytes give the width and the
    height in hundreds of pixels. *)
Definition header_size (b : list Byte.byte) : result (Z * Z) :=
  match b with
  | w :: h :: _ =>
      Ok (100 * Z.of_N (Byte.to_N w), 100 * Z.of_N (Byte.to_N h))%Z
  | _ => Raise (Exn OtherException "cannot identify image file")
  end.

(** A stand-in writer: the output starts with [%PDF] and, only when
    [stamped], goes on with the low byte of the clock. *)
Definition write_pdf (stamped : bool) (now : clock) (doc : SimpleDocTemplate)
    (story : list flowable) : result (list Byte.byte) :=
  let magic := [Byte.x25; Byte.x50; Byte.x44; Byte.x46] in
  let count := match Byte.of_N (N.of_nat (List.length story)) with
               | Some b => [b] | None => [] end in
  let stamp := match Byte.of_N (Z.to_N (now mod 256)) with
               | Some b => [b] | None => [] end in
  Ok (magic ++ count ++ (if stamped then stamp else []))%list.

Definition demo_library (stamped : bool) : Library :=
  {| py_repr := fun _ => "<repr>";
     getSize := header_size;
     parse_markup := fun _ => Ok tt;
     doc_build := write_pdf stamped;
     cm := (72 / 2.54)%float;
     A4 := (210 * (72 / 2.54 * 0.1), 297 * (72 / 2.54 * 0.1))%float |}.

Definition demo_feature (code : value) (rest : dict) : value :=
  PyDict [("type", PyStr "Feature");
          ("properties", PyDict (("code_stop", code) :: rest))].

Definition demo_response (body : result value) : response :=
  {| status_code := 200; reason := "OK"; url := WFS_URL; content := [];
     json := body |}.

(** A network that answers every call with status 200 and an empty
    body. *)
Definition empty_body_net : network :=
  fun _ rq =>
    Ok {| status_code := 200; reason := "OK"; url := req_url rq;
          content := [];
          json := Raise (Exn JSONDecodeError
                           "Expecting value: line 1 column 1 (char 0)") |}.

(** A network on which every call times out. *)
Definition timed_out : exn := Exn Timeout "Read timed out. (read timeout=20)".

Definition timeout_net : network := fun _ _ => Raise timed_out.

(** A network that answers the lookup with the collection [feats] and
    every other call with the body [img]. *)
Definition image_net (feats : list value) (img : list Byte.byte) : network :=
  fun _ rq =>
    if req_url rq =? WFS_URL then
      Ok (demo_response (Ok (PyDict [("type", PyStr "FeatureCollection");
                                     ("features", PyList feats)])))
    else
      Ok {| status_code := 200; reason := "OK"; url := req_url rq;
            content := img; json := Raise (Exn JSONDecodeError "Expecting value") |}.

(** A network that answers every call with the collection [feats]. *)
Definition demo_net (feats : list value) : network :=
  fun _ _ => Ok (demo_response (Ok (PyDict [("type", PyStr "FeatureCollection");
                                            ("features", PyList feats)]))).

Definition demo : Library := demo_library false.

(** Stop 42, with a name and no picture. *)
Definition stop42_attrs : dict :=
  [("code_stop", PyInt 42); ("name_fr", PyStr "Gare du Midi");
   ("name_nl", PyStr "Zuidstation"); ("image_stop", PyStr "")].

Definition stop42 : value :=
  PyDict [("type", PyStr "Feature"); ("properties", PyDict stop42_attrs)].

(* ================================================================= *)
(** ** The view, call by call *)

Section Calls.
Context {L : Library}.

(** What the lookup makes of the answer to its one call. *)
Definition lookup_outcome (answer : result response) (stop_code : string)
  : result (option value) :=
  (r <- answer ;;
   raise_for_status r ;;
   data <- json r ;;
   feats <- py_get data "features" PyNone ;;
   items <- py_iter (py_or feats (PyList [])) ;;
   scan_features items stop_code)%result.

Definition map_request (gid : value) : request :=
  Request (WMS_PRINT_URL gid) [] 20.

Definition photo_request (image_stop : value) : request :=
  Request ("https://data.mobility.brussels/media/" ++ py_str image_stop) [] 20.

(** The call for the map print: made when [gid] is there and not null. *)
Definition map_call (d : dict) : list request :=
  if is_None (dict_get d "gid" PyNone) then []
  else [map_request (dict_get d "gid" PyNone)].

(** The call for the photo: made when [image_stop] is true. *)
Definition photo_call (d : dict) : list request :=
  if truthy (dict_get d "image_stop" PyNone)
  then [photo_request (dict_get d "image_stop" PyNone)] else [].

(** The bytes kept from a call, [None] when the call is not made. *)
Definition bytes_from (net : network) (hist : list request)
    (call : list request) : option (list Byte.byte) :=
  match call with
  | [] => None
  | rq :: _ => downloaded (net hist rq)
  end.

(** The target widths of the two image slots, and the height that goes
    with a width [w] for an image of [iw] x [ih] pixels. *)
Definition map_width : float :=
  (usable_width * FIRST_IMAGE_WIDTH_RATIO)%float.

Definition photo_width : float :=
  (usable_width * SECOND_IMAGE_WIDTH_RATIO)%float.

Definition scaled_height (iw ih : Z) (w : float) : float :=
  (float_of_int ih * (w / float_of_int iw))%float.

(** The attribute mapping the view works on: [properties] when it is
    true, an empty one otherwise. *)
Definition attributes (fields : dict) : value :=
  py_or (dict_get fields "properties" PyNone) (PyDict []).

End Calls.

(** A stand-in markup parser: a text with as many [<] as [>] is
    accepted, any other raises. *)
Fixpoint count_char (c : ascii) (s : string) : nat :=
  match s with
  | EmptyString => 0
  | String c' r => (if Ascii.eqb c c' then 1 else 0) + count_char c r
  end.

Definition unbalanced : exn := Exn ValueError "Parse error: unbalanced tag".

Definition balanced_markup (t : string) : result unit :=
  if Nat.eqb (count_char "<"%char t) (count_char ">"%char t)
  then Ok tt else Raise unbalanced.

Definition picky_library : Library :=
  {| py_repr := fun _ => "<repr>";
     getSize := header_size;
     parse_markup := balanced_markup;
     doc_build := write_pdf false;
     cm := (72 / 2.54)%float;
     A4 := (210 * (72 / 2.54 * 0.1), 297 * (72 / 2.54 * 0.1))%float |}.

(** A network that answers the lookup with the collection [feats] and
    on which every other call times out. *)
Definition lookup_only_net (feats : list value) : network :=
  fun _ rq =>
    if req_url rq =? WFS_URL then
      Ok (demo_response (Ok (PyDict [("type", PyStr "FeatureCollection");
                                     ("features", PyList feats)])))
    else Raise timed_out.

(** A network that answers every call with the JSON document [body]. *)
Definition answer_net (body : value) : network :=
  fun _ _ => Ok (demo_response (Ok body)).

(** Stop 7, with [gid] and [image_stop] both the number 0. *)
Definition stop7_attrs : dict :=
  [("code_stop", PyStr "7"); ("gid", PyInt 0); ("image_stop", PyInt 0)].

Definition stop7 : value :=
  PyDict [("type", PyStr "Feature"); ("properties", PyDict stop7_attrs)].

(** Stop 8, with a map to print and a photo. *)
Definition stop8_attrs : dict :=
  [("code_stop", PyStr "8"); ("gid", PyInt 12);
   ("image_stop", PyStr "stop8.jpg")].

Definition stop8 : value :=
  PyDict [("type", PyStr "Feature"); ("properties", PyDict stop8_attrs)].

(** A network that answers every call with the given status and the
    JSON document [body]. *)
Definition status_net (status : Z) (phrase : string) (body : value) : network :=
  fun _ rq =>
    Ok {| status_code := status; reason := phrase; url := req_url rq;
          content := []; json := Ok body |}.

(** A stop without picture whose code holds an opening angle bracket. *)
Definition bracket_attrs : dict :=
  [("code_stop", PyStr "a<b"); ("image_stop", PyStr "")].

Definition bracket_stop : value :=
  PyDict [("type", PyStr "Feature"); ("properties", PyDict bracket_attrs)].

(** A stop whose stored code ends with a line feed. *)
Definition newline_attrs : dict :=
  [("code_stop", PyStr (String "4" (String "2" (String "010" EmptyString))));
   ("image_stop", PyStr "")].

Definition newline_stop : value :=
  PyDict [("type", PyStr "Feature"); ("properties", PyDict newline_attrs)].

(** A stop whose code holds an opening angle bracket. *)
Definition odd_attrs : dict := [("code_stop", PyStr "a<b")].

Definition odd_stop : value :=
  PyDict [("type", PyStr "Feature"); ("properties", PyDict odd_attrs)].

(* ================================================================= *)
(** ** Trimming *)

Section Trimming.

Lemma blank_app (a b : string) :
  blank (a ++ b) = blank a && blank b.
Proof.
  induction a as [|c a IH]; simpl; [reflexivity|].
  now rewrite IH, andb_assoc.
Qed.

Lemma lstrip_blank_app (l x : string) :
  blank l = true -> lstrip (l ++ x) = lstrip x.
Proof.
  induction l as [|c l IH]; simpl; intros Hl; [reflexivity|].
  apply andb_true_iff in Hl as [Hc Hl].
  now rewrite Hc, IH.
Qed.

Lemma lstrip_first (t : string) :
  (forall c, first_char t = Some c -> isspace c = false) -> lstrip t = t.
Proof.
  destruct t as [|c t]; simpl; intros H; [reflexivity|].
  now rewrite (H c eq_refl).
Qed.

Lemma rstrip_blank (r : string) : blank r = true -> rstrip r = "".
Proof.
  induction r as [|c r IH]; simpl; intros Hr; [reflexivity|].
  apply andb_true_iff in Hr as [Hc Hr].
  now rewrite IH, Hc.
Qed.

Lemma rstrip_app_blank (x r : string) :
  blank r = true -> rstrip (x ++ r) = rstrip x.
Proof.
  intros Hr. induction x as [|c x IH]; simpl.
  - now apply rstrip_blank.
  - now rewrite IH.
Qed.

Lemma rstrip_last (t : string) :
  (forall c, last_char t = Some c -> isspace c = false) -> rstrip t = t.
Proof.
  induction t as [|c t IH]; intros H; [reflexivity|].
  destruct t as [|c' t].
  - simpl. now rewrite (H c eq_refl).
  - change (rstrip (String c (String c' t)))
      with (match rstrip (String c' t) with
            | "" => if isspace c then "" else String c ""
            | r' => String c r'
            end).
    rewrite IH; [reflexivity|].
    intros c0 Hc0. apply H. exact Hc0.
Qed.

Lemma lstrip_blank (r : string) : blank r = true -> lstrip r = "".
Proof.
  induction r as [|c r IH]; simpl; intros Hr; [reflexivity|].
  apply andb_true_iff in Hr as [Hc Hr].
  now rewrite Hc, IH.
Qed.

(** The trimmed form is unique, and [strip] computes it. *)
Lemma strip_unique (s t : string) : trims_to s t -> strip s = t.
Proof.
  intros (l & r & -> & Hl & Hr & Hfirst & Hlast).
  unfold strip. rewrite lstrip_blank_app by assumption.
  destruct t as [|c t].
  - simpl. now rewrite lstrip_blank.
  - rewrite lstrip_first.
    + rewrite rstrip_app_blank by assumption. now apply rstrip_last.
    + simpl. intros c0 [= <-]. now apply Hfirst.
Qed.

Lemma lstrip_split (s : string) :
  exists l, s = l ++ lstrip s /\ blank l = true /\
            (forall c, first_char (lstrip s) = Some c -> isspace c = false).
Proof.
  induction s as [|c s (l & Hs & Hl & Hf)].
  - exists "". repeat split; simpl; congruence.
  - simpl. destruct (isspace c) eqn:Hc.
    + exists (String c l). simpl. rewrite Hc, Hl. repeat split; [congruence|assumption].
    + exists "". simpl. repeat split. now intros c0 [= <-].
Qed.

Lemma rstrip_split (x : string) :
  exists r, x = rstrip x ++ r /\ blank r = true /\
            (forall c, last_char (rstrip x) = Some c -> isspace c = false).
Proof.
  induction x as [|c x (r & Hx & Hr & Hl)].
  - exists "". repeat split; simpl; congruence.
  - simpl. destruct (rstrip x) as [|c' x'] eqn:E; simpl in Hx.
    + subst x. destruct (isspace c) eqn:Hc.
      * exists (String c r). simpl. rewrite Hc, Hr.
        split; [reflexivity|]. split; [reflexivity|]. discriminate.
      * exists r. simpl.
        split; [reflexivity|]. split; [assumption|]. now intros c0 [= <-].
    + exists r.
      split; [simpl; congruence|]. split; [assumption|]. exact Hl.
Qed.

Lemma first_char_rstrip (x : string) (c : ascii) :
  first_char (rstrip x) = Some c -> first_char x = Some c.
Proof.
  destruct x as [|c0 x]; simpl; [discriminate|].
  destruct (rstrip x); [destruct (isspace c0)|]; simpl; congruence.
Qed.

Lemma strip_trims (s : string) : trims_to s (strip s).
Proof.
  destruct (lstrip_split s) as (l & Hs & Hl & Hf).
  destruct (rstrip_split (lstrip s)) as (r & Hx & Hr & Hlast).
  exists l, r. unfold strip. repeat split; try assumption.
  - congruence.
  - intros c Hc. apply Hf. now apply first_char_rstrip.
Qed.

(** "Equal after trimming" is equality of the two [strip]s. *)
Lemma equal_after_trim_iff (a b : string) :
  equal_after_trim a b <-> strip a = strip b.
Proof.
  split.
  - intros (t & Ha & Hb).
    now rewrite (strip_unique _ _ Ha), (strip_unique _ _ Hb).
  - intros E. exists (strip a). split; [apply strip_trims|].
    rewrite E. apply strip_trims.
Qed.

(** A string without whitespace is its own trimmed form. *)
Lemma strip_tight (t : string) : tight t -> strip t = t.
Proof.
  intros [Hf Hl]. unfold strip. rewrite lstrip_first by assumption.
  now apply rstrip_last.
Qed.

Lemma spaceless_last (s : string) (c : ascii) :
  spaceless s = true -> last_char s = Some c -> isspace c = false.
Proof.
  induction s as [|c0 s IH]; simpl; [discriminate|].
  intros H. apply andb_true_iff in H as [Hc Hs].
  destruct s as [|c1 s].
  - intros [= <-]. now apply negb_true_iff.
  - now apply IH.
Qed.

Lemma spaceless_tight (s : string) : spaceless s = true -> tight s.
Proof.
  intros H. split.
  - destruct s as [|c0 s]; simpl; [discriminate|].
    intros c [= <-]. simpl in H. apply andb_true_iff in H as [Hc _].
    now apply negb_true_iff.
  - intros c. now apply spaceless_last.
Qed.

Lemma spaceless_uint (d : Decimal.uint) :
  spaceless (NilEmpty.string_of_uint d) = true.
Proof. induction d; simpl; auto. Qed.

Lemma spaceless_str_of_int (n : Z) : spaceless (str_of_int n) = true.
Proof.
  unfold str_of_int, NilZero.string_of_int, NilZero.string_of_uint.
  destruct (Z.to_int n) as [d|d]; destruct d; simpl; auto using spaceless_uint.
Qed.

(** [str(n)] of an integer carries no whitespace to trim. *)
Lemma strip_str_of_int (n : Z) : strip (str_of_int n) = str_of_int n.
Proof. apply strip_tight, spaceless_tight, spaceless_str_of_int. Qed.

End Trimming.

(* ================================================================= *)
(** ** Running programs *)

Section Running.
Context {A B : Type}.
Variable net : network.

Lemma run_lift (r : result A) (hist : list request) :
  run net hist (lift r) = (r, []).
Proof. now destruct r. Qed.

Lemma run_bind (p : prog A) (k : A -> prog B) (hist : list request) :
  run net hist (bind p k) =
  match run net hist p with
  | (Ok a, tr) =>
      let (r, tr') := run net (hist ++ tr)%list (k a) in (r, (tr ++ tr')%list)
  | (Raise e, tr) => (Raise e, tr)
  end.
Proof.
  revert hist. induction p as [a|e|rq c IH]; intros hist; simpl.
  - rewrite app_nil_r. now destruct (run net hist (k a)).
  - reflexivity.
  - rewrite IH.
    destruct (run net (hist ++ [rq])%list (c (net hist rq))) as [[a|e] tr];
      [|reflexivity].
    rewrite <- app_assoc. simpl.
    now destruct (run net (hist ++ rq :: tr)%list (k a)).
Qed.

Lemma run_try_except (p : prog A) (h : exn -> prog A) (hist : list request) :
  run net hist (try_except p h) =
  match run net hist p with
  | (Ok a, tr) => (Ok a, tr)
  | (Raise e, tr) =>
      let (r, tr') := run net (hist ++ tr)%list (h e) in (r, (tr ++ tr')%list)
  end.
Proof.
  revert hist. induction p as [a|e|rq c IH]; intros hist; simpl.
  - reflexivity.
  - rewrite app_nil_r. now destruct (run net hist (h e)).
  - rewrite IH.
    destruct (run net (hist ++ [rq])%list (c (net hist rq))) as [[a|e] tr];
      [reflexivity|].
    rewrite <- app_assoc. simpl.
    now destruct (run net (hist ++ rq :: tr)%list (h e)).
Qed.

End Running.

Lemma run_attempt {A} (net : network) (p : prog A) (hist : list request) :
  run net hist (attempt p) = (Ok (fst (run net hist p)), snd (run net hist p)).
Proof.
  unfold attempt. rewrite run_try_except, run_bind.
  destruct (run net hist p) as [[a|e] tr]; simpl.
  - now rewrite app_nil_r.
  - now rewrite app_nil_r.
Qed.

(* ================================================================= *)
(** ** The feature resolver *)

Section Resolver.
Context {L : Library}.

(** One turn of the loop on a feature with attribute mapping [d]. *)
Lemma scan_features_step (f : value) (rest : list value) (code : string)
    (d : dict) :
  properties_of f = Some d ->
  scan_features (f :: rest) code =
  if strip (attr d "code_stop") =? strip code
  then Ok (Some f) else scan_features rest code.
Proof.
  destruct f as [| | | | | |fields]; try discriminate.
  unfold properties_of, attr. simpl. unfold dict_get at 1.
  destruct (lookup "properties" fields) as [[| | | | | |d']|]; try discriminate;
    intros [= <-]; try reflexivity.
  destruct d'; reflexivity.
Qed.

Lemma same_code_iff (f : value) (code : string) (d : dict) :
  properties_of f = Some d ->
  same_code f code <-> strip (attr d "code_stop") = strip code.
Proof.
  intros Hd. unfold same_code. split.
  - intros (d' & Hd' & E). rewrite Hd in Hd'. injection Hd' as <-.
    now apply equal_after_trim_iff.
  - intros E. exists d. split; [assumption|]. now apply equal_after_trim_iff.
Qed.

(** Features that do not match are passed over. *)
Lemma scan_features_skip (pre rest : list value) (code : string) :
  Forall (fun g => is_feature g /\ ~ same_code g code) pre ->
  scan_features (pre ++ rest) code = scan_features rest code.
Proof.
  induction 1 as [|g pre [[d Hd] Hno] _ IH]; [reflexivity|].
  change ((g :: pre) ++ rest)%list with (g :: (pre ++ rest)%list).
  rewrite (scan_features_step _ _ _ _ Hd).
  destruct (String.eqb_spec (strip (attr d "code_stop")) (strip code)) as [E|_].
  - exfalso. apply Hno. now apply (same_code_iff _ _ _ Hd).
  - exact IH.
Qed.

(** The lookup, once the service has answered with a collection. *)
Lemma fetch_collection (net : network) (feats : list value) (code : string) :
  wfs_returns net feats ->
  run net [] (_fetch_collecto_feature_by_code code)
  = (scan_features feats code, [wfs_request]).
Proof.
  intros (r & fields & Hnet & Hst & Hjson & Hfeats).
  unfold _fetch_collecto_feature_by_code, requests_get, raise_for_status.
  simpl. rewrite Hnet. simpl. rewrite Hst. simpl. rewrite Hjson. simpl.
  unfold dict_get. rewrite Hfeats.
  replace (py_or (PyList feats) (PyList [])) with (PyList feats)
    by (now destruct feats).
  simpl. now rewrite run_lift.
Qed.

(** The lookup makes one call, whatever comes back. *)
Lemma fetch_trace (net : network) (hist : list request) (code : string) :
  snd (run net hist (_fetch_collecto_feature_by_code code)) = [wfs_request].
Proof.
  unfold _fetch_collecto_feature_by_code, requests_get. simpl.
  destruct (net hist wfs_request) as [r|e]; [|reflexivity]. simpl.
  rewrite !run_bind, !run_lift.
  destruct (raise_for_status r); [|reflexivity].
  rewrite !run_bind, !run_lift.
  destruct (json r) as [data|]; [|reflexivity].
  rewrite !run_bind, !run_lift.
  destruct (py_get data "features" PyNone) as [feats|]; [|reflexivity].
  rewrite !run_bind, !run_lift.
  destruct (py_iter (py_or feats (PyList []))) as [items|]; [|reflexivity].
  rewrite run_lift. reflexivity.
Qed.

End Resolver.

(** C2.  When the service returns a collection in which several features
    carry the requested code (after trimming), the lookup returns the
    first of them in collection order: the features before it are passed
    over, and nothing after it, matching or not, is looked at. *)
Theorem first_matching_feature_wins {L : Library} (net : network)
    (pre post : list value) (f : value) (code : string) :
  wfs_returns net (pre ++ f :: post) ->
  Forall (fun g => is_feature g /\ ~ same_code g code) pre ->
  same_code f code ->
  run net [] (_fetch_collecto_feature_by_code code)
  = (Ok (Some f), [wfs_request]).
Proof.
  intros Hnet Hpre Hf.
  rewrite (fetch_collection _ _ _ Hnet), (scan_features_skip _ _ _ Hpre).
  destruct Hf as (d & Hd & E).
  rewrite (scan_features_step _ _ _ _ Hd).
  apply equal_after_trim_iff in E. rewrite E.
  now rewrite String.eqb_refl.
Qed.

(** C3.  A feature whose [code_stop] is the string [s] matches the
    requested code exactly when the two are equal after trimming the
    whitespace around each; letter case is not touched.  So ["ABC"] is
    matched by [" ABC "] and not by ["abc"]. *)
Theorem code_match_trims_and_keeps_case {L : Library} (f : value) (d : dict)
    (s code : string) :
  properties_of f = Some d ->
  lookup "code_stop" d = Some (PyStr s) ->
  (scan_features [f] code = Ok (Some f) <-> equal_after_trim s code) /\
  (s = "ABC" -> scan_features [f] " ABC " = Ok (Some f)) /\
  (s = "ABC" -> scan_features [f] "abc" = Ok None).
Proof.
  intros Hd Hs.
  assert (Ha : attr d "code_stop" = s)
    by (unfold attr, dict_get; now rewrite Hs).
  repeat split.
  - rewrite (scan_features_step _ _ _ _ Hd), Ha. intros H.
    apply equal_after_trim_iff.
    destruct (String.eqb_spec (strip s) (strip code)); [assumption|discriminate].
  - intros H. apply equal_after_trim_iff in H.
    rewrite (scan_features_step _ _ _ _ Hd), Ha, H.
    now rewrite String.eqb_refl.
  - intros ->. now rewrite (scan_features_step _ _ _ _ Hd), Ha.
  - intros ->. now rewrite (scan_features_step _ _ _ _ Hd), Ha.
Qed.


(** C10.  Both sides of the comparison are turned into strings before
    they are trimmed.  A feature whose [code_stop] is any value [v]
    matches exactly when [str(v)] and the requested code are equal after
    trimming.  For a value that is not a string and whose [str] has no
    whitespace around it (always so for [None], a boolean and an integer;
    the number 42 reads ["42"]) this means: the trimmed code is [str(v)].
    A feature without [code_stop] is compared as the empty string. *)
Theorem code_match_coerces_to_str {L : Library} (f : value) (d : dict)
    (code : string) :
  properties_of f = Some d ->
  (forall v, lookup "code_stop" d = Some v ->
     (scan_features [f] code = Ok (Some f)
      <-> strip (py_str v) = strip (py_str (PyStr code))) /\
     (not_a_string v -> tight (py_str v) ->
      (scan_features [f] code = Ok (Some f) <-> strip code = py_str v)) /\
     (plain v -> tight (py_str v)) /\
     (v = PyInt 42 -> (scan_features [f] code = Ok (Some f) <-> strip code = "42")))
  /\
  (lookup "code_stop" d = None ->
     (scan_features [f] code = Ok (Some f) <-> strip code = "")).
Proof.
  intros Hd.
  assert (Hscan : scan_features [f] code = Ok (Some f)
                  <-> strip (attr d "code_stop") = strip code).
  { rewrite (scan_features_step _ _ _ _ Hd).
    destruct (String.eqb_spec (strip (attr d "code_stop")) (strip code));
      simpl; split; congruence. }
  split.
  - intros v Hv.
    assert (Ha : attr d "code_stop" = py_str v)
      by (unfold attr, dict_get; now rewrite Hv).
    rewrite Ha in Hscan.
    assert (Hplain : plain v -> tight (py_str v)).
    { destruct v as [|[|]|n| | | |]; simpl; try contradiction; intros _;
        apply spaceless_tight; try reflexivity.
      apply spaceless_str_of_int. }
    split; [exact Hscan|]. split; [|split; [exact Hplain|]].
    + intros _ Ht. rewrite (strip_tight _ Ht) in Hscan.
      rewrite Hscan. split; congruence.
    + intros ->. rewrite Hscan.
      change (strip (py_str (PyInt 42))) with "42". split; congruence.
  - intros Hv.
    assert (Ha : attr d "code_stop" = "")
      by (unfold attr, dict_get; now rewrite Hv).
    rewrite Ha in Hscan. change (strip "") with "" in Hscan.
    rewrite Hscan. split; congruence.
Qed.

(* ================================================================= *)
(** ** The view: lookup outcomes *)

Lemma fetch_query_failed {L : Library} (net : network) (code : string)
    (e : exn) :
  query_failed net e ->
  run net [] (_fetch_collecto_feature_by_code code) = (Raise e, [wfs_request]).
Proof.
  unfold _fetch_collecto_feature_by_code, requests_get, raise_for_status.
  intros [e' Hnet|r msg Hnet Hst|r e' Hnet Hst Hjson
         |r data Hnet Hst Hjson Hdata|r fields e' Hnet Hst Hjson Ht Hiter];
    simpl; rewrite Hnet; simpl.
  - reflexivity.
  - now rewrite Hst.
  - rewrite Hst. simpl. now rewrite Hjson.
  - rewrite Hst. simpl. rewrite Hjson. simpl.
    destruct data; try reflexivity. now elim (Hdata fields).
  - rewrite Hst. simpl. rewrite Hjson. simpl.
    unfold py_or. rewrite Ht, Hiter. reflexivity.
Qed.

(** The view up to the outcome of the lookup. *)
Lemma info_after_failed_lookup {L : Library} (net : network) (now : clock)
    (stop : string) (e : exn) (tr : list request) :
  run net [] (_fetch_collecto_feature_by_code stop) = (Raise e, tr) ->
  run net [] (info now stop)
  = (Ok (HttpResponseServerError
           ((if is_HTTPError e then "WFS error: " else "Could not query WFS: ")
            ++ exn_str e)), tr).
Proof.
  intros H. unfold info. rewrite run_bind, run_attempt, H. simpl.
  destruct (is_HTTPError e); simpl; now rewrite app_nil_r.
Qed.

Lemma info_after_empty_lookup {L : Library} (net : network) (now : clock)
    (stop : string) (feature : option value) (tr : list request) :
  run net [] (_fetch_collecto_feature_by_code stop) = (Ok feature, tr) ->
  found feature = false ->
  run net [] (info now stop)
  = (Ok (HttpResponseNotFound
           ("Collecto stop with code_stop='" ++ stop
            ++ "' not found in the dataset.")), tr).
Proof.
  intros H Hf. unfold info. rewrite run_bind, run_attempt, H. simpl.
  rewrite Hf. simpl. now rewrite app_nil_r.
Qed.

(** C4 (amended).  When the lookup fails in one of the ways the code
    tells from a good answer (connection error or timeout raised by the
    call, an error status 400..599, a body that is not JSON, a JSON
    document that is not an object, a ["features"] that is true and
    cannot be iterated), the resolver raises that error, and the view
    answers with a server error whose text names the cause; it never
    answers "not found". *)
Theorem query_failure_is_server_error {L : Library} (net : network)
    (now : clock) (code : string) (e : exn) :
  query_failed net e ->
  run net [] (_fetch_collecto_feature_by_code code) = (Raise e, [wfs_request])
  /\
  run net [] (info now code)
  = (Ok (HttpResponseServerError
           ((if is_HTTPError e then "WFS error: " else "Could not query WFS: ")
            ++ exn_str e)), [wfs_request])
  /\
  (forall body, fst (run net [] (info now code)) <> Ok (HttpResponseNotFound body)).
Proof.
  intros H. pose proof (fetch_query_failed net code e H) as Hf.
  pose proof (info_after_failed_lookup net now code e _ Hf) as Hi.
  split; [exact Hf|]. split; [exact Hi|].
  intros body. rewrite Hi. discriminate.
Qed.

(** C5.  When the service returns a collection of features none of
    which carries the requested code (after trimming), the empty
    collection included, the view answers "not found" with a text body,
    and makes no call besides the lookup. *)
Theorem no_match_is_not_found {L : Library} (net : network) (now : clock)
    (code : string) (feats : list value) :
  wfs_returns net feats ->
  Forall (fun g => is_feature g /\ ~ same_code g code) feats ->
  run net [] (info now code)
  = (Ok (HttpResponseNotFound
           ("Collecto stop with code_stop='" ++ code
            ++ "' not found in the dataset.")), [wfs_request]).
Proof.
  intros Hnet Hfeats.
  apply info_after_empty_lookup with (feature := None); [|reflexivity].
  rewrite (fetch_collection _ _ _ Hnet).
  rewrite <- (app_nil_r feats), (scan_features_skip _ _ _ Hfeats).
  reflexivity.
Qed.

(* ================================================================= *)
(** ** The image fetcher *)

(** C6 (amended).  The fetcher makes one call and never raises.  An
    exception raised by the call (connection error, timeout) and an
    error status (400..599) give [None].  Any other response gives its
    body as it is: an empty body gives the empty buffer, not [None].  The
    composer's [if img_bytes:] takes the empty buffer for a missing
    image, exactly as it takes [None]. *)
Theorem download_image_never_raises {L : Library} (net : network)
    (hist : list request) (url : string) :
  run net hist (_download_image url)
  = (Ok (downloaded (net hist (Request url [] 20))), [Request url [] 20]) /\
  (forall e, downloaded (Raise e) = None) /\
  (forall res,
     downloaded (Ok res)
     = if (400 <=? status_code res)%Z && (status_code res <? 600)%Z
       then None else Some (content res)) /\
  (forall props other,
     _build_pdf_story props (Some []) other = _build_pdf_story props None other /\
     _build_pdf_story props other (Some []) = _build_pdf_story props other None).
Proof.
  split; [|split; [reflexivity|split; [|split; reflexivity]]].
  - unfold _download_image, requests_get. simpl.
    destruct (net hist (Request url [] 20)) as [res|e]; simpl; [|reflexivity].
    unfold raise_for_status. now destruct (http_error_msg res).
  - intros res. unfold downloaded, http_error_msg.
    destruct (Z.leb_spec 400 (status_code res)), (Z.ltb_spec (status_code res) 500),
      (Z.leb_spec 500 (status_code res)), (Z.ltb_spec (status_code res) 600);
      simpl; try reflexivity; lia.
Qed.

(* ================================================================= *)
(** ** The composer *)

Lemma float_pos_nonzero (w : float) :
  (0 <? w)%float = true -> (w =? 0)%float = false.
Proof.
  rewrite ltb_spec, eqb_spec.
  destruct (Prim2SF w) as [sg|sg| |sg m e]; try destruct sg;
    vm_compute; congruence.
Qed.

(** C7.  For an image of pixel size [iw] x [ih], both positive, and a
    positive target width [w], the image block has width [w] and height
    [ih * (w / iw)], in the floating-point arithmetic of the source.
    For 1000 x 500 and a target of 300 the height is exactly 150. *)
Theorem scaled_image_keeps_ratio {L : Library} (b : list Byte.byte)
    (iw ih : Z) (w : float) :
  getSize b = Ok (iw, ih) ->
  (0 < iw)%Z -> (0 < ih)%Z -> (0 <? w)%float = true ->
  _scaled_image_flowable b w
  = Ok (Image b w (float_of_int ih * (w / float_of_int iw))%float,
        w, (float_of_int ih * (w / float_of_int iw))%float)
  /\
  (iw = 1000%Z -> ih = 500%Z -> w = 300%float ->
   _scaled_image_flowable b w = Ok (Image b 300 150, 300, 150)%float).
Proof.
  intros Hsize Hiw Hih Hw.
  assert (E : _scaled_image_flowable b w
              = Ok (Image b w (float_of_int ih * (w / float_of_int iw))%float,
                    w, (float_of_int ih * (w / float_of_int iw))%float)).
  { unfold _scaled_image_flowable. rewrite Hsize. simpl.
    destruct (Z.eqb_spec iw 0); [lia|]. destruct (Z.eqb_spec ih 0); [lia|].
    simpl. now rewrite (float_pos_nonzero w Hw), Hw. }
  split; [exact E|].
  intros -> -> ->. rewrite E. reflexivity.
Qed.

Section Composer.
Context {L : Library}.


(** The story, for an attribute mapping whose four texts the markup
    parser accepts. *)
Lemma build_pdf_story_layout (d : dict)
    (img1_bytes img2_bytes : option (list Byte.byte)) :
  texts_accepted d ->
  _build_pdf_story (PyDict d) img1_bytes img2_bytes
  = Ok (template d,
        layout d
          (image_or img1_bytes (usable_width * FIRST_IMAGE_WIDTH_RATIO)%float
             (fun flow => flow) map_placeholder)
          (image_or img2_bytes (usable_width * SECOND_IMAGE_WIDTH_RATIO)%float
             (fun flow => KeepTogether [flow]) photo_placeholder)).
Proof.
  unfold texts_accepted, title_text, names_text, address_fr, address_nl, attr.
  intros (Ht & Hn & Hf & Hl).
  unfold _build_pdf_story, new_Paragraph.
  cbn [py_get rbind]. rewrite Ht. cbn [rbind]. rewrite Hn. cbn [rbind].
  rewrite Hf. cbn [rbind]. rewrite Hl. cbn [rbind].
  unfold image_or, map_placeholder, photo_placeholder, usable_width.
  cbn [leftMargin rightMargin].
  destruct (bytes_truthy img1_bytes);
    [destruct (_scaled_image_flowable (the_bytes img1_bytes) _)
       as [[[flow1 w1] h1]|e1]|];
    (destruct (bytes_truthy img2_bytes);
     [destruct (_scaled_image_flowable (the_bytes img2_bytes) _)
        as [[[flow2 w2] h2]|e2]|]);
    reflexivity.
Qed.

End Composer.

(** Either the four texts are accepted, or the parser raises on one of
    them and that exception is what building the story raises. *)
Lemma build_pdf_story_texts {L : Library} (d : dict)
    (img1 img2 : option (list Byte.byte)) :
  texts_accepted d \/
  (exists t e,
     In t [title_text d; names_text d; address_fr d; address_nl d] /\
     parse_markup t = Raise e /\
     _build_pdf_story (PyDict d) img1 img2 = Raise e).
Proof.
  destruct (parse_markup (title_text d)) as [[]|e1] eqn:H1;
    [destruct (parse_markup (names_text d)) as [[]|e2] eqn:H2;
     [destruct (parse_markup (address_fr d)) as [[]|e3] eqn:H3;
      [destruct (parse_markup (address_nl d)) as [[]|e4] eqn:H4|]|]|].
  - left. repeat split; assumption.
  - right. exists (address_nl d), e4. split; [simpl; tauto|]. split; [exact H4|].
    unfold title_text, names_text, address_fr, address_nl, attr in *.
    unfold _build_pdf_story, new_Paragraph. cbn [py_get rbind].
    rewrite H1. cbn [rbind]. rewrite H2. cbn [rbind]. rewrite H3. cbn [rbind].
    rewrite H4. reflexivity.
  - right. exists (address_fr d), e3. split; [simpl; tauto|]. split; [exact H3|].
    unfold title_text, names_text, address_fr, attr in *.
    unfold _build_pdf_story, new_Paragraph. cbn [py_get rbind].
    rewrite H1. cbn [rbind]. rewrite H2. cbn [rbind]. rewrite H3. reflexivity.
  - right. exists (names_text d), e2. split; [simpl; tauto|]. split; [exact H2|].
    unfold title_text, names_text, attr in *.
    unfold _build_pdf_story, new_Paragraph. cbn [py_get rbind].
    rewrite H1. cbn [rbind]. rewrite H2. reflexivity.
  - right. exists (title_text d), e1. split; [simpl; tauto|]. split; [exact H1|].
    unfold title_text, attr in *.
    unfold _build_pdf_story, new_Paragraph. cbn [py_get rbind].
    rewrite H1. reflexivity.
Qed.





(* ================================================================= *)
(** ** The view: a stop without images *)

Lemma feature_with_attributes (f : value) (d : dict) :
  properties_of f = Some d -> d <> [] ->
  exists fields, f = PyDict fields /\ truthy f = true /\
                 lookup "properties" fields = Some (PyDict d).
Proof.
  destruct f as [| | | | | |fields]; try discriminate.
  unfold properties_of.
  destruct (lookup "properties" fields) as [[| | | | | |d']|] eqn:E;
    try discriminate; intros [= <-] Hd; try congruence.
  exists fields. split; [reflexivity|]. split; [|exact E].
  destruct fields; [discriminate|reflexivity].
Qed.


Lemma has_newline_app (a b : string) :
  has_newline (a ++ b) = has_newline a || has_newline b.
Proof.
  induction a as [|c a IH]; simpl; [reflexivity|].
  now rewrite IH, !orb_assoc.
Qed.

(** Django refuses the file name exactly when the code it carries holds a
    line break. *)
Lemma disposition_newline {L : Library} (d : dict) (stop : string) :
  has_newline (disposition_of d stop)
  = has_newline (py_str (dict_get d "code_stop" (PyStr stop))).
Proof.
  unfold disposition_of. rewrite !has_newline_app.
  change (has_newline "inline; filename=") with false.
  change (has_newline dquote) with false.
  change (has_newline "collecto_") with false.
  change (has_newline ".pdf") with false.
  now rewrite !orb_false_r.
Qed.

Lemma view_answer_ok {L : Library} (d : dict) (stop : string)
    (pdf : list Byte.byte) :
  has_newline (py_str (dict_get d "code_stop" (PyStr stop))) = false ->
  view_answer d stop (Ok pdf)
  = Ok (HttpResponseOk pdf "application/pdf" (disposition_of d stop)).
Proof.
  intros H. unfold view_answer, set_header.
  now rewrite disposition_newline, H.
Qed.

(** The end of the view, after the composer. *)
Lemma run_answer {L : Library} (net : network) (hist : list request)
    (d : dict) (stop : string) (built : result (list Byte.byte)) :
  run net hist
    (match built with
     | Ok pdf_bytes =>
         (lift (set_header (disposition_of d stop)) ;;
          Return (HttpResponseOk pdf_bytes "application/pdf"
                    (disposition_of d stop)))%prog
     | Raise e =>
         Return (HttpResponseServerError
                   ("Failed to generate PDF: " ++ exn_str e))
     end)
  = (view_answer d stop built, []).
Proof.
  destruct built as [pdf|e]; [|reflexivity].
  unfold view_answer.
  now destruct (set_header (disposition_of d stop)) as [[]|e].
Qed.

Lemma info_without_images {L : Library} (net : network) (now : clock)
    (stop : string) (feature : value) (d : dict) (tr : list request) :
  run net [] (_fetch_collecto_feature_by_code stop) = (Ok (Some feature), tr) ->
  properties_of feature = Some d ->
  lookup "gid" d = None ->
  lookup "image_stop" d = Some (PyStr "") ->
  run net [] (info now stop)
  = (view_answer d stop (_build_pdf now (PyDict d) None None), tr).
Proof.
  intros Hrun Hd Hgid Himg.
  assert (Hne : d <> []) by (intros ->; discriminate).
  destruct (feature_with_attributes feature d Hd Hne) as (fields & -> & Ht & Hp).
  unfold info. rewrite run_bind, run_attempt, Hrun.
  cbn [fst snd found]. rewrite Ht. cbn [negb].
  assert (Ep : dict_get fields "properties" PyNone = PyDict d)
    by (unfold dict_get; now rewrite Hp).
  assert (Eg : dict_get d "gid" PyNone = PyNone)
    by (unfold dict_get; now rewrite Hgid).
  assert (Ei : dict_get d "image_stop" PyNone = PyStr "")
    by (unfold dict_get; now rewrite Himg).
  cbn [py_get lift bind]. rewrite Ep.
  replace (py_or (PyDict d) (PyDict [])) with (PyDict d)
    by (destruct d; [congruence|reflexivity]).
  cbn [py_get lift bind]. rewrite Eg, Ei.
  cbn [is_None negb truthy String.eqb bind].
  fold (disposition_of d stop).
  rewrite (run_answer net _ d stop). now rewrite app_nil_r.
Qed.

(** When the composer returns for a page without images, the page is
    the one with the two placeholders. *)
Lemma build_pdf_without_images {L : Library} (now : clock) (d : dict)
    (pdf : list Byte.byte) :
  _build_pdf now (PyDict d) None None = Ok pdf ->
  _build_pdf_story (PyDict d) None None = Ok (template d, placeholder_page d) /\
  doc_build now (template d) (placeholder_page d) = Ok pdf.
Proof.
  unfold _build_pdf.
  destruct (build_pdf_story_texts d None None) as [Ht|(t & e & _ & _ & Hs)].
  - pose proof (build_pdf_story_layout d None None Ht) as Hs.
    unfold image_or in Hs. cbn [bytes_truthy] in Hs.
    rewrite Hs. cbn [rbind fst snd]. intros Hb. split; [reflexivity|exact Hb].
  - rewrite Hs. discriminate.
Qed.

(** C8 (amended).  For a resolved feature whose attributes have no
    [gid] and an empty [image_stop], the view makes no call besides the
    lookup and gives the composer no image.  Whenever the composer
    returns a document, it is what [doc.build] wrote for the page with
    exactly two placeholder boxes, "Map image unavailable" and "Stop photo
    unavailable", and no image, and the view returns it with status 200
    when the code that names the file holds no line break.  When the
    composer raises, the view answers with a server error. *)
Theorem no_images_no_fetch_two_placeholders {L : Library} (net : network)
    (now : clock) (stop : string) (feature : value) (d : dict) :
  fst (run net [] (_fetch_collecto_feature_by_code stop)) = Ok (Some feature) ->
  properties_of feature = Some d ->
  lookup "gid" d = None ->
  lookup "image_stop" d = Some (PyStr "") ->
  snd (run net [] (info now stop)) = [wfs_request] /\
  (forall pdf,
     _build_pdf now (PyDict d) None None = Ok pdf ->
     _build_pdf_story (PyDict d) None None = Ok (template d, placeholder_page d) /\
     doc_build now (template d) (placeholder_page d) = Ok pdf /\
     (has_newline (py_str (dict_get d "code_stop" (PyStr stop))) = false ->
      fst (run net [] (info now stop))
      = Ok (HttpResponseOk pdf "application/pdf" (disposition_of d stop)))) /\
  (forall e,
     _build_pdf now (PyDict d) None None = Raise e ->
     fst (run net [] (info now stop))
     = Ok (HttpResponseServerError ("Failed to generate PDF: " ++ exn_str e))) /\
  filter is_placeholder (placeholder_page d)
  = [map_placeholder; photo_placeholder] /\
  map label_of (filter is_placeholder (placeholder_page d))
  = [Some "Map image unavailable"; Some "Stop photo unavailable"] /\
  existsb has_image (placeholder_page d) = false.
Proof.
  intros Hrun Hd Hgid Himg.
  assert (H : run net [] (_fetch_collecto_feature_by_code stop)
              = (Ok (Some feature), [wfs_request])).
  { rewrite (surjective_pairing (run _ _ _)), Hrun. f_equal. apply fetch_trace. }
  pose proof (info_without_images net now stop feature d _ H Hd Hgid Himg) as Hi.
  split; [now rewrite Hi|].
  split; [|split; [|repeat split]].
  - intros pdf Hpdf.
    destruct (build_pdf_without_images now d pdf Hpdf) as [Hs Hb].
    split; [exact Hs|]. split; [exact Hb|].
    intros Hnl. rewrite Hi, Hpdf. cbn [fst]. now apply view_answer_ok.
  - intros e He. now rewrite Hi, He.
Qed.

(* ================================================================= *)
(** ** Worked examples *)



(** Three stops, the last two with the same code up to whitespace. *)
Lemma first_matching_feature_wins_witness :
  run (demo_net [demo_feature (PyStr "17") [];
                 demo_feature (PyStr " 42") [("name_fr", PyStr "Midi")];
                 demo_feature (PyStr "42 ") [("name_fr", PyStr "Sud")]]) []
      (_fetch_collecto_feature_by_code (L := demo) "42")
  = (Ok (Some (demo_feature (PyStr " 42") [("name_fr", PyStr "Midi")])),
     [wfs_request]).
Proof.
  apply (first_matching_feature_wins (L := demo) _
           [demo_feature (PyStr "17") []]
           [demo_feature (PyStr "42 ") [("name_fr", PyStr "Sud")]]
           (demo_feature (PyStr " 42") [("name_fr", PyStr "Midi")]) "42").
  - eexists _, _. repeat split; reflexivity.
  - constructor; [|constructor]. split.
    + eexists. reflexivity.
    + intros H.
      apply (same_code_iff (L := demo) (demo_feature (PyStr "17") []) "42"
               [("code_stop", PyStr "17")] eq_refl) in H.
      vm_compute in H. discriminate H.
  - apply (same_code_iff (L := demo)
             (demo_feature (PyStr " 42") [("name_fr", PyStr "Midi")]) "42"
             [("code_stop", PyStr " 42"); ("name_fr", PyStr "Midi")] eq_refl).
    reflexivity.
Defined.

Lemma code_match_trims_and_keeps_case_witness :
  (scan_features (L := demo) [demo_feature (PyStr "ABC") []] " ABC "
   = Ok (Some (demo_feature (PyStr "ABC") []))
   <-> equal_after_trim "ABC" " ABC ") /\
  ("ABC" = "ABC" ->
   scan_features (L := demo) [demo_feature (PyStr "ABC") []] " ABC "
   = Ok (Some (demo_feature (PyStr "ABC") []))) /\
  ("ABC" = "ABC" ->
   scan_features (L := demo) [demo_feature (PyStr "ABC") []] "abc" = Ok None).
Proof.
  apply (code_match_trims_and_keeps_case (L := demo)
           (demo_feature (PyStr "ABC") []) [("code_stop", PyStr "ABC")]
           "ABC" " ABC "); reflexivity.
Defined.

(** C4, as stated, fails: an answer with status 300 and an empty
    collection, and an answer 200 whose JSON object has no ["features"],
    are both reported "not found". *)
Lemma non_success_status_is_reported_not_found :
  run (status_net 300 "Multiple Choices" (PyDict [("features", PyList [])])) []
      (info (L := demo) 0%Z "42")
  = (Ok (HttpResponseNotFound
           "Collecto stop with code_stop='42' not found in the dataset."),
     [wfs_request]) /\
  run (status_net 200 "OK" (PyDict [("error", PyStr "no such layer")])) []
      (info (L := demo) 0%Z "42")
  = (Ok (HttpResponseNotFound
           "Collecto stop with code_stop='42' not found in the dataset."),
     [wfs_request]).
Proof. split; reflexivity. Qed.

(** The lookup times out. *)
Lemma query_failure_is_server_error_witness :
  run timeout_net [] (_fetch_collecto_feature_by_code (L := demo) "42")
  = (Raise timed_out, [wfs_request]) /\
  run timeout_net [] (info (L := demo) 0%Z "42")
  = (Ok (HttpResponseServerError
           ((if is_HTTPError timed_out
             then "WFS error: " else "Could not query WFS: ")
            ++ exn_str timed_out)), [wfs_request]) /\
  (forall body, fst (run timeout_net [] (info (L := demo) 0%Z "42"))
                <> Ok (HttpResponseNotFound body)).
Proof.
  apply (query_failure_is_server_error (L := demo) timeout_net 0%Z "42").
  apply network_error. reflexivity.
Defined.

(** Code 99 in a collection that only has stop 42. *)
Lemma no_match_is_not_found_witness :
  run (demo_net [stop42]) [] (info (L := demo) 0%Z "99")
  = (Ok (HttpResponseNotFound
           ("Collecto stop with code_stop='" ++ "99"
            ++ "' not found in the dataset.")), [wfs_request]).
Proof.
  apply (no_match_is_not_found (L := demo) (demo_net [stop42]) 0%Z "99" [stop42]).
  - eexists _, _. repeat split; reflexivity.
  - constructor; [|constructor]. split.
    + eexists. reflexivity.
    + intros H.
      apply (same_code_iff (L := demo) stop42 "99" stop42_attrs eq_refl) in H.
      vm_compute in H. discriminate H.
Defined.

(** C6, as stated, fails: a 200 answer with an empty body comes back as
    the empty buffer, which is not [None]. *)
Lemma download_image_empty_body_is_not_absent :
  fst (run empty_body_net []
         (_download_image "https://data.mobility.brussels/media/photo.jpg"))
  = Ok (Some []) /\
  fst (run empty_body_net []
         (_download_image "https://data.mobility.brussels/media/photo.jpg"))
  <> Ok None.
Proof. split; [reflexivity|discriminate]. Qed.

(** A 1000 x 500 image at a target width of 300. *)
Lemma scaled_image_keeps_ratio_witness :
  _scaled_image_flowable (L := demo) [Byte.x0a; Byte.x05] 300%float
  = Ok (Image [Byte.x0a; Byte.x05] 300
          (float_of_int 500 * (300 / float_of_int 1000))%float,
        300%float, (float_of_int 500 * (300 / float_of_int 1000))%float)
  /\
  (1000%Z = 1000%Z -> 500%Z = 500%Z -> 300%float = 300%float ->
   _scaled_image_flowable (L := demo) [Byte.x0a; Byte.x05] 300%float
   = Ok (Image [Byte.x0a; Byte.x05] 300 150, 300, 150)%float).
Proof.
  apply (scaled_image_keeps_ratio (L := demo) [Byte.x0a; Byte.x05]
           1000 500 300%float); [reflexivity|lia|lia|reflexivity].
Defined.

(** C8, as stated, fails: a resolved stop without [gid] and with an
    empty [image_stop], whose title the markup parser rejects, gets a
    server error and no document. *)
Lemma no_images_and_no_document :
  fst (run (demo_net [bracket_stop]) []
         (_fetch_collecto_feature_by_code (L := picky_library) "a<b"))
  = Ok (Some bracket_stop) /\
  properties_of bracket_stop = Some bracket_attrs /\
  lookup "gid" bracket_attrs = None /\
  lookup "image_stop" bracket_attrs = Some (PyStr "") /\
  run (demo_net [bracket_stop]) [] (info (L := picky_library) 0%Z "a<b")
  = (Ok (HttpResponseServerError
           "Failed to generate PDF: Parse error: unbalanced tag"),
     [wfs_request]).
Proof. repeat split. Qed.

(** Stop 42 has no [gid] and an empty [image_stop]. *)
Lemma no_images_no_fetch_two_placeholders_witness :
  snd (run (demo_net [stop42]) [] (info (L := demo) 0%Z "42")) = [wfs_request] /\
  (forall pdf,
     _build_pdf (L := demo) 0%Z (PyDict stop42_attrs) None None = Ok pdf ->
     _build_pdf_story (L := demo) (PyDict stop42_attrs) None None
     = Ok (template (L := demo) stop42_attrs,
           placeholder_page (L := demo) stop42_attrs) /\
     doc_build (Library := demo) 0%Z (template (L := demo) stop42_attrs)
       (placeholder_page (L := demo) stop42_attrs) = Ok pdf /\
     (has_newline (py_str (L := demo)
                     (dict_get stop42_attrs "code_stop" (PyStr "42"))) = false ->
      fst (run (demo_net [stop42]) [] (info (L := demo) 0%Z "42"))
      = Ok (HttpResponseOk pdf "application/pdf"
              (disposition_of (L := demo) stop42_attrs "42")))) /\
  (forall e,
     _build_pdf (L := demo) 0%Z (PyDict stop42_attrs) None None = Raise e ->
     fst (run (demo_net [stop42]) [] (info (L := demo) 0%Z "42"))
     = Ok (HttpResponseServerError ("Failed to generate PDF: " ++ exn_str e))) /\
  filter is_placeholder (placeholder_page (L := demo) stop42_attrs)
  = [map_placeholder (L := demo); photo_placeholder (L := demo)] /\
  map label_of (filter is_placeholder (placeholder_page (L := demo) stop42_attrs))
  = [Some "Map image unavailable"; Some "Stop photo unavailable"] /\
  existsb has_image (placeholder_page (L := demo) stop42_attrs) = false.
Proof.
  apply (no_images_no_fetch_two_placeholders (L := demo) (demo_net [stop42])
           0%Z "42" stop42 stop42_attrs); reflexivity.
Defined.

(** The number 42 against the code [" 42 "]. *)
Lemma code_match_coerces_to_str_witness :
  (forall v, lookup "code_stop" stop42_attrs = Some v ->
     (scan_features (L := demo) [stop42] " 42 " = Ok (Some stop42)
      <-> strip (py_str (L := demo) v) = strip (py_str (L := demo) (PyStr " 42 "))) /\
     (not_a_string v -> tight (py_str (L := demo) v) ->
      (scan_features (L := demo) [stop42] " 42 " = Ok (Some stop42)
       <-> strip " 42 " = py_str (L := demo) v)) /\
     (plain v -> tight (py_str (L := demo) v)) /\
     (v = PyInt 42 ->
      (scan_features (L := demo) [stop42] " 42 " = Ok (Some stop42)
       <-> strip " 42 " = "42")))
  /\
  (lookup "code_stop" stop42_attrs = None ->
     (scan_features (L := demo) [stop42] " 42 " = Ok (Some stop42)
      <-> strip " 42 " = "")).
Proof.
  apply (code_match_coerces_to_str (L := demo) stop42 stop42_attrs " 42 ").
  reflexivity.
Defined.

(** Stop 42 with [gid = 7] and a photo: the map print and the photo are
    both fetched, after the lookup, and both reach the page as images. *)
Example both_images_fetched :
  let f := demo_feature (PyStr "42")
             [("gid", PyInt 7); ("image_stop", PyStr "photo.jpg")] in
  snd (run (image_net [f] [Byte.x0a; Byte.x05]) []
         (info (L := demo) 0%Z "42"))
  = [wfs_request;
     Request (WMS_PRINT_URL (L := demo) (PyInt 7)) [] 20;
     Request "https://data.mobility.brussels/media/photo.jpg" [] 20]
  /\
  match _build_pdf_story (L := demo)
          (PyDict [("code_stop", PyStr "42"); ("gid", PyInt 7);
                   ("image_stop", PyStr "photo.jpg")])
          (Some [Byte.x0a; Byte.x05]) (Some [Byte.x0a; Byte.x05]) with
  | Ok (_, story) =>
      filter is_placeholder story = [] /\
      List.length (filter has_image story) = 2%nat
  | Raise _ => False
  end.
Proof. repeat split. Qed.

(** An answer 503 to the lookup. *)
Example lookup_error_status :
  let net : network :=
    fun _ rq => Ok {| status_code := 503; reason := "Service Unavailable";
                      url := req_url rq; content := []; json := Ok PyNone |} in
  run net [] (info (L := demo) 0%Z "42")
  = (Ok (HttpResponseServerError
           ("WFS error: 503 Server Error: Service Unavailable for url: "
            ++ WFS_URL)), [wfs_request]).
Proof. reflexivity. Qed.

(** An empty feature matches the blank code, and is then taken for no
    feature by the view. *)
Example empty_feature_is_not_found :
  fst (run (demo_net [PyDict []]) []
         (_fetch_collecto_feature_by_code (L := demo) " "))
  = Ok (Some (PyDict [])) /\
  fst (run (demo_net [PyDict []]) [] (info (L := demo) 0%Z " "))
  = Ok (HttpResponseNotFound
          "Collecto stop with code_stop=' ' not found in the dataset.").
Proof. split; reflexivity. Qed.

(* ================================================================= *)
(** ** Further properties: the lookup *)

Lemma run_download_image (net : network) (hist : list request) (url : string) :
  run net hist (_download_image url)
  = (Ok (downloaded (net hist (Request url [] 20))), [Request url [] 20]).
Proof.
  unfold _download_image, requests_get. simpl.
  destruct (net hist (Request url [] 20)) as [res|e]; simpl; [|reflexivity].
  unfold raise_for_status. now destruct (http_error_msg res).
Qed.

(** The lookup is one call, and a function of its answer. *)
Lemma run_fetch {L : Library} (net : network) (hist : list request)
    (code : string) :
  run net hist (_fetch_collecto_feature_by_code code)
  = (lookup_outcome (net hist wfs_request) code, [wfs_request]).
Proof.
  unfold _fetch_collecto_feature_by_code, requests_get, lookup_outcome.
  simpl. destruct (net hist wfs_request) as [r|e]; [|reflexivity]. simpl.
  rewrite !run_bind, !run_lift.
  destruct (raise_for_status r) as [[]|]; [|reflexivity]. simpl.
  rewrite !run_bind, !run_lift.
  destruct (json r) as [data|]; [|reflexivity]. simpl.
  rewrite !run_bind, !run_lift.
  destruct (py_get data "features" PyNone) as [feats|]; [|reflexivity]. simpl.
  rewrite !run_bind, !run_lift.
  destruct (py_iter (py_or feats (PyList []))) as [items|]; [|reflexivity].
  simpl. rewrite run_lift.
  now destruct (scan_features items code).
Qed.

(** What the loop returns is an object of the collection whose
    attribute mapping is a dict, and whose code matched. *)
Lemma scan_features_found {L : Library} (items : list value) (code : string)
    (f : value) :
  scan_features items code = Ok (Some f) ->
  In f items /\
  exists fields d, f = PyDict fields /\ attributes fields = PyDict d /\
                   strip (attr d "code_stop") = strip code.
Proof.
  induction items as [|g items IH]; [discriminate|].
  simpl. destruct g as [| | | | | |fields]; try discriminate.
  cbn [py_get rbind].
  fold (attributes fields).
  destruct (attributes fields) as [| | | | | |d] eqn:Ea; try discriminate.
  cbn [py_get rbind].
  destruct (String.eqb_spec (strip (py_str (dict_get d "code_stop" (PyStr ""))))
              (strip code)) as [E|_].
  - intros [= <-]. split; [now left|]. now exists fields, d.
  - intros H. destruct (IH H) as [Hin Hshape]. split; [now right|exact Hshape].
Qed.

Lemma lookup_outcome_found {L : Library} (answer : result response)
    (code : string) (f : value) :
  lookup_outcome answer code = Ok (Some f) ->
  exists fields d, f = PyDict fields /\ attributes fields = PyDict d /\
                   strip (attr d "code_stop") = strip code.
Proof.
  unfold lookup_outcome.
  destruct answer as [r|]; [|discriminate]. cbn [rbind].
  destruct (raise_for_status r); [|discriminate]. cbn [rbind].
  destruct (json r) as [data|]; [|discriminate]. cbn [rbind].
  destruct (py_get data "features" PyNone) as [feats|]; [|discriminate].
  cbn [rbind].
  destruct (py_iter (py_or feats (PyList []))) as [items|]; [|discriminate].
  cbn [rbind]. intros H. now apply scan_features_found in H.
Qed.

(* ================================================================= *)
(** ** Further properties: the view *)

(** The view on a feature that the lookup returned and that is true:
    the calls it makes, the bytes it keeps from them, and its outcome. *)
Lemma info_on_feature {L : Library} (net : network) (now : clock)
    (stop : string) (fields d : dict) :
  lookup_outcome (net [] wfs_request) stop = Ok (Some (PyDict fields)) ->
  fields <> [] ->
  attributes fields = PyDict d ->
  run net [] (info now stop)
  = (view_answer d stop
       (_build_pdf now (PyDict d)
          (bytes_from net [wfs_request] (map_call d))
          (bytes_from net (wfs_request :: map_call d) (photo_call d))),
     wfs_request :: (map_call d ++ photo_call d)%list).
Proof.
  intros Hl Hne Ha.
  unfold info. rewrite run_bind, run_attempt, run_fetch, Hl.
  cbn [fst snd found truthy].
  destruct fields as [|kv fields']; [congruence|]. cbn [negb].
  set (fs := kv :: fields') in *.
  cbn [py_get lift bind]. fold (attributes fs). rewrite Ha.
  cbn [py_get lift bind]. fold (disposition_of d stop).
  unfold map_call, photo_call, map_request, photo_request.
  set (gid := dict_get d "gid" PyNone).
  set (image_stop := dict_get d "image_stop" PyNone).
  cbn [app].
  rewrite run_bind.
  destruct (is_None gid); cbn [negb].
  - cbn [run]. cbn [app]. rewrite run_bind.
    destruct (truthy image_stop).
    + rewrite run_download_image. cbn [bytes_from app].
      rewrite (run_answer net _ d stop). reflexivity.
    + cbn [run bytes_from app].
      rewrite (run_answer net _ d stop). reflexivity.
  - rewrite run_download_image. cbn [app]. rewrite run_bind.
    destruct (truthy image_stop).
    + rewrite run_download_image. cbn [bytes_from app].
      rewrite (run_answer net _ d stop). reflexivity.
    + cbn [run bytes_from app].
      rewrite (run_answer net _ d stop). reflexivity.
Qed.

Lemma properties_attributes {L : Library} (fields d : dict) :
  properties_of (PyDict fields) = Some d -> attributes fields = PyDict d.
Proof.
  unfold properties_of, attributes, dict_get.
  destruct (lookup "properties" fields) as [[| | | | | |d']|]; try discriminate;
    intros [= <-]; try reflexivity.
  now destruct d'.
Qed.

(** The three ways the view can go. *)
Lemma info_cases {L : Library} (net : network) (now : clock) (stop : string) :
  (exists e,
     lookup_outcome (net [] wfs_request) stop = Raise e /\
     run net [] (info now stop)
     = (Ok (HttpResponseServerError
              ((if is_HTTPError e then "WFS error: "
                else "Could not query WFS: ") ++ exn_str e)), [wfs_request]))
  \/
  (exists feature,
     lookup_outcome (net [] wfs_request) stop = Ok feature /\
     found feature = false /\
     run net [] (info now stop)
     = (Ok (HttpResponseNotFound
              ("Collecto stop with code_stop='" ++ stop
               ++ "' not found in the dataset.")), [wfs_request]))
  \/
  (exists fields d,
     lookup_outcome (net [] wfs_request) stop = Ok (Some (PyDict fields)) /\
     fields <> [] /\ attributes fields = PyDict d /\
     strip (attr d "code_stop") = strip stop /\
     run net [] (info now stop)
     = (view_answer d stop
          (_build_pdf now (PyDict d)
             (bytes_from net [wfs_request] (map_call d))
             (bytes_from net (wfs_request :: map_call d) (photo_call d))),
        wfs_request :: (map_call d ++ photo_call d)%list)).
Proof.
  destruct (lookup_outcome (net [] wfs_request) stop) as [feature|e] eqn:Hl.
  - destruct (found feature) eqn:Hf.
    + right. right. destruct feature as [f|]; [|discriminate].
      destruct (lookup_outcome_found _ _ _ Hl) as (fields & d & -> & Ha & Hm).
      assert (Hne : fields <> []) by (intros ->; discriminate).
      exists fields, d. split; [reflexivity|].
      repeat (split; [assumption|]).
      now apply (info_on_feature net now stop fields d).
    + right. left. exists feature. split; [reflexivity|]. split; [assumption|].
      apply info_after_empty_lookup with (feature := feature); [|assumption].
      now rewrite run_fetch, Hl.
  - left. exists e. split; [reflexivity|].
    apply info_after_failed_lookup. now rewrite run_fetch, Hl.
Qed.



(** X2.  When the view answers "not found", it has made the lookup call
    and no other, the text names the code as it was asked, and the lookup
    had returned no feature, or an empty object. *)
Theorem not_found_makes_no_image_call {L : Library} (net : network)
    (now : clock) (stop body : string) :
  fst (run net [] (info now stop)) = Ok (HttpResponseNotFound body) ->
  snd (run net [] (info now stop)) = [wfs_request] /\
  body = "Collecto stop with code_stop='" ++ stop ++ "' not found in the dataset."
  /\
  (fst (run net [] (_fetch_collecto_feature_by_code stop)) = Ok None \/
   fst (run net [] (_fetch_collecto_feature_by_code stop)) = Ok (Some (PyDict []))).
Proof.
  rewrite run_fetch. cbn [fst].
  destruct (info_cases net now stop)
    as [(e & _ & H)|[(feature & Hl & Hf & H)|(fields & d & _ & _ & _ & _ & H)]];
    rewrite H; cbn [fst snd].
  - discriminate.
  - intros [= <-]. split; [reflexivity|]. split; [reflexivity|].
    rewrite Hl. destruct feature as [f|]; [right|now left].
    destruct (lookup_outcome_found _ _ _ Hl) as (fields & d & -> & _).
    destruct fields; [reflexivity|discriminate].
  - unfold view_answer.
    destruct (_build_pdf _ _ _ _); [|discriminate].
    destruct (set_header _) as [[]|]; discriminate.
Qed.

(** X3.  When the view answers 200, the body is the PDF the composer
    built from the attribute mapping of a feature the lookup returned,
    whose code equals the requested one after trimming, and from the
    bytes of the image calls; the content type is [application/pdf] and
    the file name carries the feature's [code_stop] as stored (the
    requested code when it has none). *)
Theorem ok_answer_carries_composed_pdf {L : Library} (net : network)
    (now : clock) (stop : string) (body : list Byte.byte)
    (content_type disposition : string) :
  fst (run net [] (info now stop))
  = Ok (HttpResponseOk body content_type disposition) ->
  content_type = "application/pdf" /\
  exists fields d,
    fst (run net [] (_fetch_collecto_feature_by_code stop))
    = Ok (Some (PyDict fields)) /\
    attributes fields = PyDict d /\
    equal_after_trim (attr d "code_stop") stop /\
    _build_pdf now (PyDict d)
      (bytes_from net [wfs_request] (map_call d))
      (bytes_from net (wfs_request :: map_call d) (photo_call d)) = Ok body /\
    disposition
    = "inline; filename=" ++ dquote
      ++ ("collecto_" ++ py_str (dict_get d "code_stop" (PyStr stop)) ++ ".pdf")
      ++ dquote.
Proof.
  rewrite run_fetch. cbn [fst].
  destruct (info_cases net now stop)
    as [(e & _ & H)|[(feature & _ & _ & H)|(fields & d & Hl & _ & Ha & Hm & H)]];
    rewrite H; cbn [fst]; try discriminate.
  unfold view_answer.
  destruct (_build_pdf now (PyDict d) _ _) as [pdf|e] eqn:Hb; [|discriminate].
  destruct (set_header (disposition_of d stop)) as [[]|]; [|discriminate].
  cbn [rbind]. unfold disposition_of.
  intros [= <- <- <-]. split; [reflexivity|].
  exists fields, d. repeat (split; [assumption|]).
  split; [now apply equal_after_trim_iff|]. split; [exact Hb|reflexivity].
Qed.

Lemma info_on_resolved {L : Library} (net : network) (now : clock)
    (stop : string) (feature : value) (d : dict) :
  fst (run net [] (_fetch_collecto_feature_by_code stop)) = Ok (Some feature) ->
  truthy feature = true ->
  properties_of feature = Some d ->
  run net [] (info now stop)
  = (view_answer d stop
       (_build_pdf now (PyDict d)
          (bytes_from net [wfs_request] (map_call d))
          (bytes_from net (wfs_request :: map_call d) (photo_call d))),
     wfs_request :: (map_call d ++ photo_call d)%list).
Proof.
  rewrite run_fetch. cbn [fst]. intros Hl Ht Hd.
  destruct (lookup_outcome_found _ _ _ Hl) as (fields & d' & -> & Ha & _).
  apply (info_on_feature net now stop fields d Hl).
  - intros ->. discriminate.
  - now apply properties_attributes.
Qed.

Lemma build_pdf_falsy_bytes {L : Library} (now : clock) (props : value)
    (img1 img2 : option (list Byte.byte)) :
  bytes_truthy img1 = false -> bytes_truthy img2 = false ->
  _build_pdf now props img1 img2 = _build_pdf now props None None.
Proof.
  intros H1 H2. unfold _build_pdf, _build_pdf_story. now rewrite H1, H2.
Qed.

Lemma build_pdf_title_rejected {L : Library} (now : clock) (d : dict)
    (img1 img2 : option (list Byte.byte)) (e : exn) :
  parse_markup (title_text d) = Raise e ->
  _build_pdf now (PyDict d) img1 img2 = Raise e.
Proof.
  unfold title_text, attr. intros H.
  unfold _build_pdf, _build_pdf_story, new_Paragraph. cbn [py_get rbind].
  rewrite H. reflexivity.
Qed.

(** X4.  For a feature the lookup returned, the calls of the view are,
    in this order: the lookup; the map print, when [gid] is there and
    not null (a [gid] of 0 counts); the photo, when [image_stop] is true
    (missing, null, [""] and 0 do not count).  Each image call has no
    parameters and a timeout of 20. *)
Theorem view_image_calls {L : Library} (net : network) (now : clock)
    (stop : string) (feature : value) (d : dict) :
  fst (run net [] (_fetch_collecto_feature_by_code stop)) = Ok (Some feature) ->
  truthy feature = true ->
  properties_of feature = Some d ->
  snd (run net [] (info now stop))
  = wfs_request
    :: ((if is_None (dict_get d "gid" PyNone) then []
         else [Request (WMS_PRINT_URL (dict_get d "gid" PyNone)) [] 20])
        ++ (if truthy (dict_get d "image_stop" PyNone)
            then [Request ("https://data.mobility.brussels/media/"
                           ++ py_str (dict_get d "image_stop" PyNone)) [] 20]
            else []))%list.
Proof.
  intros Hf Ht Hd. now rewrite (info_on_resolved net now stop feature d Hf Ht Hd).
Qed.

(** X5.  When every image call fails (an exception, an error status) or
    brings an empty body, the view ends exactly as for a feature without
    any image: for texts the markup parser accepts, its outcome is made
    from what [doc.build] returns for the page with the two
    placeholders; in particular it answers 200 with that PDF when
    [doc.build] returns one and the code that names the file holds no
    line break. *)
Theorem failed_image_calls_give_placeholders {L : Library} (net : network)
    (now : clock) (stop : string) (feature : value) (d : dict) :
  fst (run net [] (_fetch_collecto_feature_by_code stop)) = Ok (Some feature) ->
  truthy feature = true ->
  properties_of feature = Some d ->
  texts_accepted d ->
  (forall hist url,
     bytes_truthy (downloaded (net hist (Request url [] 20))) = false) ->
  fst (run net [] (info now stop))
  = view_answer d stop (doc_build now (template d) (placeholder_page d)) /\
  (forall pdf,
     doc_build now (template d) (placeholder_page d) = Ok pdf ->
     has_newline (py_str (dict_get d "code_stop" (PyStr stop))) = false ->
     fst (run net [] (info now stop))
     = Ok (HttpResponseOk pdf "application/pdf" (disposition_of d stop))).
Proof.
  intros Hf Ht Hd Htexts Hnet.
  assert (H1 : forall hist, bytes_truthy (bytes_from net hist (map_call d)) = false).
  { intros hist. unfold map_call.
    destruct (is_None (dict_get d "gid" PyNone)); [reflexivity|]. apply Hnet. }
  assert (H2 : forall hist, bytes_truthy (bytes_from net hist (photo_call d)) = false).
  { intros hist. unfold photo_call.
    destruct (truthy (dict_get d "image_stop" PyNone)); [|reflexivity].
    apply Hnet. }
  assert (E : fst (run net [] (info now stop))
              = view_answer d stop (doc_build now (template d) (placeholder_page d))).
  { rewrite (info_on_resolved net now stop feature d Hf Ht Hd). cbn [fst].
    rewrite (build_pdf_falsy_bytes now (PyDict d) _ _ (H1 _) (H2 _)).
    unfold _build_pdf.
    pose proof (build_pdf_story_layout d None None Htexts) as Hs.
    unfold image_or in Hs. cbn [bytes_truthy] in Hs.
    now rewrite Hs. }
  split; [exact E|].
  intros pdf Hpdf Hnl. rewrite E, Hpdf. now apply view_answer_ok.
Qed.

(** X6.  When the markup parser of [Paragraph] rejects the title of the
    page, the view does not raise: after the lookup and the image calls
    it answers with a server error, "Failed to generate PDF: " followed
    by the parser's message. *)
Theorem rejected_title_is_server_error {L : Library} (net : network)
    (now : clock) (stop : string) (feature : value) (d : dict) (e : exn) :
  fst (run net [] (_fetch_collecto_feature_by_code stop)) = Ok (Some feature) ->
  truthy feature = true ->
  properties_of feature = Some d ->
  parse_markup ("COLLECTO " ++ py_str (dict_get d "code_stop" (PyStr "")))
  = Raise e ->
  run net [] (info now stop)
  = (Ok (HttpResponseServerError ("Failed to generate PDF: " ++ exn_str e)),
     wfs_request :: (map_call d ++ photo_call d)%list).
Proof.
  intros Hf Ht Hd He.
  rewrite (info_on_resolved net now stop feature d Hf Ht Hd).
  now rewrite (build_pdf_title_rejected now d _ _ e He).
Qed.

(* ================================================================= *)
(** ** Further properties: the lookup on a collection *)

Lemma scan_features_wellformed {L : Library} (feats : list value)
    (code : string) :
  Forall is_feature feats ->
  (exists r, scan_features feats code = Ok r) /\
  (scan_features feats code = Ok None
   <-> Forall (fun g => ~ same_code g code) feats) /\
  (forall f, scan_features feats code = Ok (Some f) ->
             In f feats /\ same_code f code).
Proof.
  induction 1 as [|g feats [d Hd] _ (IHr & IHn & IHs)].
  - split; [now exists None|]. split; [|discriminate].
    split; [constructor|reflexivity].
  - rewrite (scan_features_step _ _ _ _ Hd).
    pose proof (same_code_iff g code d Hd) as Hsame.
    destruct (String.eqb_spec (strip (attr d "code_stop")) (strip code)) as [E|N].
    + split; [now exists (Some g)|]. split.
      * split; [discriminate|]. intros Hall. inversion Hall as [|? ? Hg _].
        exfalso. apply Hg. now apply Hsame.
      * intros f [= <-]. split; [now left|]. now apply Hsame.
    + split; [exact IHr|]. split.
      * rewrite IHn. split.
        -- intros Hall. constructor; [|assumption]. intros Hg. apply N.
           now apply Hsame.
        -- intros Hall. now inversion Hall.
      * intros f Hf. destruct (IHs f Hf) as [Hin Hm]. split; [now right|assumption].
Qed.

(** X7.  On a collection of well-formed features the lookup does not
    raise.  It returns nothing exactly when no feature carries the code
    (after trimming), and a feature it returns is one of the collection
    and carries the code. *)
Theorem lookup_is_sound_and_complete {L : Library} (net : network)
    (feats : list value) (code : string) :
  wfs_returns net feats ->
  Forall is_feature feats ->
  (exists r, fst (run net [] (_fetch_collecto_feature_by_code code)) = Ok r) /\
  (fst (run net [] (_fetch_collecto_feature_by_code code)) = Ok None
   <-> Forall (fun g => ~ same_code g code) feats) /\
  (forall f, fst (run net [] (_fetch_collecto_feature_by_code code)) = Ok (Some f)
             -> In f feats /\ same_code f code).
Proof.
  intros Hnet Hwf. rewrite (fetch_collection _ _ _ Hnet). cbn [fst].
  now apply scan_features_wellformed.
Qed.

Lemma scan_features_strip {L : Library} (items : list value) (c1 c2 : string) :
  strip c1 = strip c2 -> scan_features items c1 = scan_features items c2.
Proof.
  intros E. induction items as [|f items IH]; [reflexivity|].
  simpl. rewrite E, IH. reflexivity.
Qed.

(** X8.  Whitespace around the requested code plays no part in the
    lookup: two codes that are equal after trimming get the same outcome
    from the same network, feature or exception alike. *)
Theorem lookup_ignores_whitespace_around_code {L : Library} (net : network)
    (hist : list request) (c1 c2 : string) :
  equal_after_trim c1 c2 ->
  run net hist (_fetch_collecto_feature_by_code c1)
  = run net hist (_fetch_collecto_feature_by_code c2).
Proof.
  intros E. apply equal_after_trim_iff in E.
  rewrite !run_fetch. f_equal. unfold lookup_outcome.
  destruct (net hist wfs_request) as [r|]; [|reflexivity]. cbn [rbind].
  destruct (raise_for_status r); [|reflexivity]. cbn [rbind].
  destruct (json r) as [data|]; [|reflexivity]. cbn [rbind].
  destruct (py_get data "features" PyNone) as [feats|]; [|reflexivity].
  cbn [rbind].
  destruct (py_iter (py_or feats (PyList []))) as [items|]; [|reflexivity].
  cbn [rbind]. now apply scan_features_strip.
Qed.

(** X9.  An element of the collection that is not an object, met before
    any feature carrying the code, makes the lookup raise
    [AttributeError]; the view answers with a server error that names the
    type of the element, even when a matching feature comes later. *)
Theorem malformed_feature_is_server_error {L : Library} (net : network)
    (now : clock) (code : string) (pre post : list value) (bad : value) :
  wfs_returns net (pre ++ bad :: post) ->
  Forall (fun g => is_feature g /\ ~ same_code g code) pre ->
  (forall fields, bad <> PyDict fields) ->
  run net [] (info now code)
  = (Ok (HttpResponseServerError
           ("Could not query WFS: '" ++ type_name bad
            ++ "' object has no attribute 'get'")), [wfs_request]).
Proof.
  intros Hnet Hpre Hbad.
  apply (info_after_failed_lookup net now code
           (Exn AttributeError
              ("'" ++ type_name bad ++ "' object has no attribute 'get'"))).
  rewrite (fetch_collection _ _ _ Hnet), (scan_features_skip _ _ _ Hpre).
  destruct bad; try reflexivity. now elim (Hbad fields).
Qed.

(** X10.  A JSON answer that is an object without ["features"], or with
    a ["features"] that is false (null, an empty list, an empty object,
    an empty string, zero), is taken for an empty collection: the view
    answers "not found". *)
Theorem missing_features_is_not_found {L : Library} (net : network)
    (now : clock) (code : string) (r : response) (fields : dict) :
  net [] wfs_request = Ok r ->
  http_error_msg r = None ->
  json r = Ok (PyDict fields) ->
  truthy (dict_get fields "features" PyNone) = false ->
  run net [] (info now code)
  = (Ok (HttpResponseNotFound
           ("Collecto stop with code_stop='" ++ code
            ++ "' not found in the dataset.")), [wfs_request]).
Proof.
  intros Hnet Hst Hjson Hfalse.
  apply info_after_empty_lookup with (feature := None); [|reflexivity].
  rewrite run_fetch, Hnet. unfold lookup_outcome, raise_for_status.
  cbn [rbind]. rewrite Hst. cbn [rbind]. rewrite Hjson. cbn [rbind py_get].
  unfold py_or. now rewrite Hfalse.
Qed.

(** X11.  A JSON answer that is not an object (a list, a string, a
    number, null) makes the lookup raise [AttributeError]; an object
    whose ["features"] is true and cannot be iterated (a number other
    than zero, [true]) makes it raise [TypeError].  Either way the view
    answers with a server error that names the type. *)
Theorem unexpected_json_is_server_error {L : Library} (net : network)
    (now : clock) (code : string) (r : response) (data : value) :
  net [] wfs_request = Ok r ->
  http_error_msg r = None ->
  json r = Ok data ->
  ((forall fields, data <> PyDict fields) ->
   run net [] (info now code)
   = (Ok (HttpResponseServerError
            ("Could not query WFS: '" ++ type_name data
             ++ "' object has no attribute 'get'")), [wfs_request])) /\
  (forall fields feats e,
     data = PyDict fields ->
     dict_get fields "features" PyNone = feats ->
     truthy feats = true ->
     py_iter feats = Raise e ->
     run net [] (info now code)
     = (Ok (HttpResponseServerError
              ("Could not query WFS: '" ++ type_name feats
               ++ "' object is not iterable")), [wfs_request])).
Proof.
  intros Hnet Hst Hjson. split.
  - intros Hdata.
    apply (info_after_failed_lookup net now code
             (Exn AttributeError
                ("'" ++ type_name data ++ "' object has no attribute 'get'"))).
    rewrite run_fetch, Hnet. unfold lookup_outcome, raise_for_status.
    cbn [rbind]. rewrite Hst. cbn [rbind]. rewrite Hjson. cbn [rbind].
    destruct data; try reflexivity. now elim (Hdata fields).
  - intros fields feats e -> Hfeats Ht Hiter.
    apply (info_after_failed_lookup net now code
             (Exn TypeError
                ("'" ++ type_name feats ++ "' object is not iterable"))).
    rewrite run_fetch, Hnet. unfold lookup_outcome, raise_for_status.
    cbn [rbind]. rewrite Hst. cbn [rbind]. rewrite Hjson. cbn [rbind py_get].
    rewrite Hfeats. unfold py_or. rewrite Ht.
    destruct feats; try discriminate; reflexivity.
Qed.

(* ================================================================= *)
(** ** Further properties: images on the page *)

(** X12.  The scaling helper raises exactly when the size of the image
    cannot be read or one side is zero (then with [ValueError], whatever
    the target width).  When it returns, the flowable is an image over
    the very bytes it was given, as wide as the width it returns. *)
Theorem scaled_image_raises_iff {L : Library} (b : list Byte.byte)
    (target : float) :
  ((exists e, _scaled_image_flowable b target = Raise e)
   <-> ((exists e, getSize b = Raise e) \/
        (exists iw ih, getSize b = Ok (iw, ih) /\ (iw = 0 \/ ih = 0)%Z))) /\
  (forall iw ih, getSize b = Ok (iw, ih) -> (iw = 0 \/ ih = 0)%Z ->
     _scaled_image_flowable b target
     = Raise (Exn ValueError "Invalid image dimensions (0 x 0)")) /\
  (forall flow w h, _scaled_image_flowable b target = Ok (flow, w, h) ->
     flow = Image b w h).
Proof.
  unfold _scaled_image_flowable.
  destruct (getSize b) as [[iw ih]|e0] eqn:Hsize; cbn [rbind].
  - destruct ((iw =? 0)%Z || (ih =? 0)%Z) eqn:Hz.
    + split; [|split].
      * split; [|now exists (Exn ValueError "Invalid image dimensions (0 x 0)")].
        intros _. right. exists iw, ih. split; [reflexivity|].
        apply orb_true_iff in Hz as [Hz|Hz]; apply Z.eqb_eq in Hz; tauto.
      * intros; reflexivity.
      * discriminate.
    + apply orb_false_iff in Hz as [Hi Hh].
      apply Z.eqb_neq in Hi, Hh.
      split; [|split].
      * split; [intros [e He]; discriminate|].
        intros [[e He]|(iw' & ih' & [= <- <-] & Hzero)]; [discriminate|lia].
      * intros iw' ih' [= <- <-] Hzero. lia.
      * now intros flow w h [= <- <- <-].
  - split; [|split].
    + split; [|now exists e0]. intros _. left. now exists e0.
    + discriminate.
    + discriminate.
Qed.

(** X13.  When the target width is not positive (zero, negative, or not
    a number), a readable image keeps its pixel width: its width is
    [float(iw)] and its height [ih * (float(iw) / float(iw))]. *)
Theorem scaled_image_falls_back_to_pixel_width {L : Library}
    (b : list Byte.byte) (iw ih : Z) (target : float) :
  getSize b = Ok (iw, ih) ->
  iw <> 0%Z -> ih <> 0%Z ->
  (0 <? target)%float = false ->
  _scaled_image_flowable b target
  = Ok (Image b (float_of_int iw)
          (float_of_int ih * (float_of_int iw / float_of_int iw))%float,
        float_of_int iw,
        (float_of_int ih * (float_of_int iw / float_of_int iw))%float).
Proof.
  intros Hsize Hi Hh Ht. unfold _scaled_image_flowable.
  rewrite Hsize. cbn [rbind].
  apply Z.eqb_neq in Hi, Hh. rewrite Hi, Hh. cbn [orb].
  now rewrite Ht, andb_false_r.
Qed.

(** X14.  Two buffers that are not empty and whose sizes can be read,
    with no zero side, both reach the page as images, for texts the
    markup parser accepts and a page wider than its margins: the map
    print at the full usable width, the photo at 0.66 of it and kept
    together, each with the height [ih * (w / iw)]; no placeholder is
    left on the page. *)
Theorem decodable_images_reach_the_page {L : Library} (d : dict)
    (b1 b2 : list Byte.byte) (iw1 ih1 iw2 ih2 : Z) :
  texts_accepted d ->
  b1 <> [] -> b2 <> [] ->
  getSize b1 = Ok (iw1, ih1) -> (0 < iw1)%Z -> (0 < ih1)%Z ->
  getSize b2 = Ok (iw2, ih2) -> (0 < iw2)%Z -> (0 < ih2)%Z ->
  (0 <? map_width)%float = true ->
  (0 <? photo_width)%float = true ->
  _build_pdf_story (PyDict d) (Some b1) (Some b2)
  = Ok (template d,
        layout d
          (Image b1 map_width (scaled_height iw1 ih1 map_width))
          (KeepTogether
             [Image b2 photo_width (scaled_height iw2 ih2 photo_width)])) /\
  filter is_placeholder
    (layout d
       (Image b1 map_width (scaled_height iw1 ih1 map_width))
       (KeepTogether
          [Image b2 photo_width (scaled_height iw2 ih2 photo_width)])) = [].
Proof.
  intros Ht Hb1 Hb2 Hs1 Hiw1 Hih1 Hs2 Hiw2 Hih2 Hw1 Hw2.
  split; [|reflexivity].
  rewrite (build_pdf_story_layout d (Some b1) (Some b2) Ht).
  unfold image_or, scaled_height.
  replace (bytes_truthy (Some b1)) with true by (now destruct b1).
  replace (bytes_truthy (Some b2)) with true by (now destruct b2).
  cbn [the_bytes]. fold map_width photo_width.
  assert (E : forall b iw ih w, getSize b = Ok (iw, ih) ->
                (0 < iw)%Z -> (0 < ih)%Z -> (0 <? w)%float = true ->
                _scaled_image_flowable b w
                = Ok (Image b w (float_of_int ih * (w / float_of_int iw))%float,
                      w, (float_of_int ih * (w / float_of_int iw))%float)).
  { intros b iw ih w Hs Hi Hh Hw. unfold _scaled_image_flowable.
    rewrite Hs. cbn [rbind].
    destruct (Z.eqb_spec iw 0); [lia|]. destruct (Z.eqb_spec ih 0); [lia|].
    cbn [orb]. now rewrite (float_pos_nonzero w Hw), Hw. }
  rewrite (E b1 iw1 ih1 map_width Hs1 Hiw1 Hih1 Hw1),
          (E b2 iw2 ih2 photo_width Hs2 Hiw2 Hih2 Hw2).
  reflexivity.
Qed.

(** X15.  A feature that is the empty object is returned by the lookup
    when the requested code is blank, and is then taken for no feature by
    the view, which answers "not found". *)
Theorem empty_object_feature_is_not_found {L : Library} (net : network)
    (now : clock) (code : string) (pre post : list value) :
  wfs_returns net (pre ++ PyDict [] :: post) ->
  Forall (fun g => is_feature g /\ ~ same_code g code) pre ->
  strip code = "" ->
  fst (run net [] (_fetch_collecto_feature_by_code code)) = Ok (Some (PyDict []))
  /\
  run net [] (info now code)
  = (Ok (HttpResponseNotFound
           ("Collecto stop with code_stop='" ++ code
            ++ "' not found in the dataset.")), [wfs_request]).
Proof.
  intros Hnet Hpre Hblank.
  assert (H : run net [] (_fetch_collecto_feature_by_code code)
              = (Ok (Some (PyDict [])), [wfs_request])).
  { rewrite (fetch_collection _ _ _ Hnet), (scan_features_skip _ _ _ Hpre).
    rewrite (scan_features_step (PyDict []) post code [] eq_refl).
    change (strip (attr [] "code_stop")) with "". now rewrite Hblank. }
  split; [now rewrite H|].
  now apply info_after_empty_lookup with (feature := Some (PyDict [])).
Qed.

(* ================================================================= *)
(** ** Further worked examples *)

(** Code 99 against a collection that only has stop 42. *)
Lemma not_found_makes_no_image_call_witness :
  snd (run (demo_net [stop42]) [] (info (L := demo) 0%Z "99")) = [wfs_request] /\
  "Collecto stop with code_stop='99' not found in the dataset."
  = "Collecto stop with code_stop='" ++ "99" ++ "' not found in the dataset."
  /\
  (fst (run (demo_net [stop42]) []
          (_fetch_collecto_feature_by_code (L := demo) "99")) = Ok None \/
   fst (run (demo_net [stop42]) []
          (_fetch_collecto_feature_by_code (L := demo) "99"))
   = Ok (Some (PyDict []))).
Proof.
  apply (not_found_makes_no_image_call (L := demo) (demo_net [stop42]) 0%Z "99"
           "Collecto stop with code_stop='99' not found in the dataset.").
  reflexivity.
Defined.

(** Stop 42 asked for as ["42"]. *)
Lemma ok_answer_carries_composed_pdf_witness :
  "application/pdf" = "application/pdf" /\
  exists fields d,
    fst (run (demo_net [stop42]) []
           (_fetch_collecto_feature_by_code (L := demo) "42"))
    = Ok (Some (PyDict fields)) /\
    attributes fields = PyDict d /\
    equal_after_trim (attr (L := demo) d "code_stop") "42" /\
    _build_pdf (L := demo) 0%Z (PyDict d)
      (bytes_from (demo_net [stop42]) [wfs_request] (map_call (L := demo) d))
      (bytes_from (demo_net [stop42])
         (wfs_request :: map_call (L := demo) d) (photo_call (L := demo) d))
    = Ok [Byte.x25; Byte.x50; Byte.x44; Byte.x46; Byte.x0b] /\
    "inline; filename=" ++ dquote ++ "collecto_42.pdf" ++ dquote
    = "inline; filename=" ++ dquote
      ++ ("collecto_" ++ py_str (L := demo) (dict_get d "code_stop" (PyStr "42"))
          ++ ".pdf")
      ++ dquote.
Proof.
  apply (ok_answer_carries_composed_pdf (L := demo) (demo_net [stop42]) 0%Z "42"
           [Byte.x25; Byte.x50; Byte.x44; Byte.x46; Byte.x0b]
           "application/pdf"
           ("inline; filename=" ++ dquote ++ "collecto_42.pdf" ++ dquote)).
  reflexivity.
Defined.

(** Stop 7: a [gid] of 0 is fetched, an [image_stop] of 0 is not. *)
Lemma view_image_calls_witness :
  snd (run (demo_net [stop7]) [] (info (L := demo) 0%Z "7"))
  = wfs_request
    :: ((if is_None (dict_get stop7_attrs "gid" PyNone) then []
         else [Request (WMS_PRINT_URL (L := demo)
                          (dict_get stop7_attrs "gid" PyNone)) [] 20])
        ++ (if truthy (dict_get stop7_attrs "image_stop" PyNone)
            then [Request ("https://data.mobility.brussels/media/"
                           ++ py_str (L := demo)
                                (dict_get stop7_attrs "image_stop" PyNone))
                    [] 20]
            else []))%list.
Proof.
  apply (view_image_calls (L := demo) (demo_net [stop7]) 0%Z "7" stop7
           stop7_attrs); reflexivity.
Defined.

(** Stop 8 on a network where both image calls time out. *)
Lemma failed_image_calls_give_placeholders_witness :
  fst (run (lookup_only_net [stop8]) [] (info (L := demo) 0%Z "8"))
  = view_answer (L := demo) stop8_attrs "8"
      (doc_build (Library := demo) 0%Z (template (L := demo) stop8_attrs)
         (placeholder_page (L := demo) stop8_attrs)) /\
  (forall pdf,
     doc_build (Library := demo) 0%Z (template (L := demo) stop8_attrs)
       (placeholder_page (L := demo) stop8_attrs) = Ok pdf ->
     has_newline (py_str (L := demo)
                    (dict_get stop8_attrs "code_stop" (PyStr "8"))) = false ->
     fst (run (lookup_only_net [stop8]) [] (info (L := demo) 0%Z "8"))
     = Ok (HttpResponseOk pdf "application/pdf"
             (disposition_of (L := demo) stop8_attrs "8"))).
Proof.
  apply (failed_image_calls_give_placeholders (L := demo)
           (lookup_only_net [stop8]) 0%Z "8" stop8 stop8_attrs).
  - reflexivity.
  - reflexivity.
  - reflexivity.
  - repeat split; reflexivity.
  - intros hist url. unfold lookup_only_net. cbn [req_url].
    destruct (url =? WFS_URL); reflexivity.
Defined.

(** A code with an opening bracket, under the parser that wants balanced
    brackets. *)
Lemma rejected_title_is_server_error_witness :
  run (demo_net [odd_stop]) [] (info (L := picky_library) 0%Z "a<b")
  = (Ok (HttpResponseServerError
           ("Failed to generate PDF: " ++ exn_str unbalanced)),
     wfs_request
     :: (map_call (L := picky_library) odd_attrs
         ++ photo_call (L := picky_library) odd_attrs)%list).
Proof.
  apply (rejected_title_is_server_error (L := picky_library)
           (demo_net [odd_stop]) 0%Z "a<b" odd_stop odd_attrs unbalanced);
    reflexivity.
Defined.

(** Stops 42 and 7, asked for 7. *)
Lemma lookup_is_sound_and_complete_witness :
  (exists r, fst (run (demo_net [stop42; stop7]) []
                    (_fetch_collecto_feature_by_code (L := demo) "7")) = Ok r) /\
  (fst (run (demo_net [stop42; stop7]) []
          (_fetch_collecto_feature_by_code (L := demo) "7")) = Ok None
   <-> Forall (fun g => ~ same_code (L := demo) g "7") [stop42; stop7]) /\
  (forall f, fst (run (demo_net [stop42; stop7]) []
                    (_fetch_collecto_feature_by_code (L := demo) "7"))
             = Ok (Some f)
             -> In f [stop42; stop7] /\ same_code (L := demo) f "7").
Proof.
  apply (lookup_is_sound_and_complete (L := demo) (demo_net [stop42; stop7])
           [stop42; stop7] "7").
  - eexists _, _. repeat split; reflexivity.
  - repeat constructor; eexists; reflexivity.
Defined.

(** [" 42 "] and ["42"]. *)
Lemma lookup_ignores_whitespace_around_code_witness :
  run (demo_net [stop42]) [] (_fetch_collecto_feature_by_code (L := demo) " 42 ")
  = run (demo_net [stop42]) [] (_fetch_collecto_feature_by_code (L := demo) "42").
Proof.
  apply (lookup_ignores_whitespace_around_code (L := demo) (demo_net [stop42])
           [] " 42 " "42").
  apply equal_after_trim_iff. reflexivity.
Defined.

(** A null between stop 7 and stop 42, asked for 42. *)
Lemma malformed_feature_is_server_error_witness :
  run (demo_net [stop7; PyNone; stop42]) [] (info (L := demo) 0%Z "42")
  = (Ok (HttpResponseServerError
           ("Could not query WFS: '" ++ type_name PyNone
            ++ "' object has no attribute 'get'")), [wfs_request]).
Proof.
  apply (malformed_feature_is_server_error (L := demo)
           (demo_net [stop7; PyNone; stop42]) 0%Z "42" [stop7] [stop42] PyNone).
  - eexists _, _. repeat split; reflexivity.
  - constructor; [|constructor]. split.
    + eexists. reflexivity.
    + intros H.
      apply (same_code_iff (L := demo) stop7 "42" stop7_attrs eq_refl) in H.
      vm_compute in H. discriminate H.
  - discriminate.
Defined.

(** An answer that is an error report, with no ["features"]. *)
Lemma missing_features_is_not_found_witness :
  run (answer_net (PyDict [("error", PyStr "no such layer")])) []
      (info (L := demo) 0%Z "42")
  = (Ok (HttpResponseNotFound
           ("Collecto stop with code_stop='" ++ "42"
            ++ "' not found in the dataset.")), [wfs_request]).
Proof.
  apply (missing_features_is_not_found (L := demo)
           (answer_net (PyDict [("error", PyStr "no such layer")])) 0%Z "42"
           (demo_response (Ok (PyDict [("error", PyStr "no such layer")])))
           [("error", PyStr "no such layer")]); reflexivity.
Defined.

(** An answer that is a JSON list. *)
Lemma unexpected_json_is_server_error_witness :
  ((forall fields, PyList [] <> PyDict fields) ->
   run (answer_net (PyList [])) [] (info (L := demo) 0%Z "42")
   = (Ok (HttpResponseServerError
            ("Could not query WFS: '" ++ type_name (PyList [])
             ++ "' object has no attribute 'get'")), [wfs_request])) /\
  (forall fields feats e,
     PyList [] = PyDict fields ->
     dict_get fields "features" PyNone = feats ->
     truthy feats = true ->
     py_iter feats = Raise e ->
     run (answer_net (PyList [])) [] (info (L := demo) 0%Z "42")
     = (Ok (HttpResponseServerError
              ("Could not query WFS: '" ++ type_name feats
               ++ "' object is not iterable")), [wfs_request])).
Proof.
  apply (unexpected_json_is_server_error (L := demo) (answer_net (PyList []))
           0%Z "42" (demo_response (Ok (PyList []))) (PyList []));
    reflexivity.
Defined.

(** A 1000 x 500 image and a target width of zero. *)
Lemma scaled_image_falls_back_to_pixel_width_witness :
  _scaled_image_flowable (L := demo) [Byte.x0a; Byte.x05] 0%float
  = Ok (Image [Byte.x0a; Byte.x05] (float_of_int 1000)
          (float_of_int 500 * (float_of_int 1000 / float_of_int 1000))%float,
        float_of_int 1000,
        (float_of_int 500 * (float_of_int 1000 / float_of_int 1000))%float).
Proof.
  apply (scaled_image_falls_back_to_pixel_width (L := demo)
           [Byte.x0a; Byte.x05] 1000 500 0%float);
    [reflexivity|lia|lia|reflexivity].
Defined.

(** A 1000 x 500 map print and a 300 x 400 photo for stop 42. *)
Lemma decodable_images_reach_the_page_witness :
  _build_pdf_story (L := demo) (PyDict stop42_attrs)
    (Some [Byte.x0a; Byte.x05]) (Some [Byte.x03; Byte.x04])
  = Ok (template (L := demo) stop42_attrs,
        layout (L := demo) stop42_attrs
          (Image [Byte.x0a; Byte.x05] (map_width (L := demo))
             (scaled_height 1000 500 (map_width (L := demo))))
          (KeepTogether
             [Image [Byte.x03; Byte.x04] (photo_width (L := demo))
                (scaled_height 300 400 (photo_width (L := demo)))])) /\
  filter is_placeholder
    (layout (L := demo) stop42_attrs
       (Image [Byte.x0a; Byte.x05] (map_width (L := demo))
          (scaled_height 1000 500 (map_width (L := demo))))
       (KeepTogether
          [Image [Byte.x03; Byte.x04] (photo_width (L := demo))
             (scaled_height 300 400 (photo_width (L := demo)))])) = [].
Proof.
  apply (decodable_images_reach_the_page (L := demo) stop42_attrs
           [Byte.x0a; Byte.x05] [Byte.x03; Byte.x04] 1000 500 300 400);
    try reflexivity; try lia; try discriminate.
  repeat split; reflexivity.
Defined.

(** An empty object between stop 42 and stop 7, asked for a blank. *)
Lemma empty_object_feature_is_not_found_witness :
  fst (run (demo_net [stop42; PyDict []; stop7]) []
         (_fetch_collecto_feature_by_code (L := demo) " "))
  = Ok (Some (PyDict []))
  /\
  run (demo_net [stop42; PyDict []; stop7]) [] (info (L := demo) 0%Z " ")
  = (Ok (HttpResponseNotFound
           ("Collecto stop with code_stop='" ++ " "
            ++ "' not found in the dataset.")), [wfs_request]).
Proof.
  apply (empty_object_feature_is_not_found (L := demo)
           (demo_net [stop42; PyDict []; stop7]) 0%Z " " [stop42] [stop7]).
  - eexists _, _. repeat split; reflexivity.
  - constructor; [|constructor]. split.
    + eexists. reflexivity.
    + intros H.
      apply (same_code_iff (L := demo) stop42 " " stop42_attrs eq_refl) in H.
      vm_compute in H. discriminate H.
  - reflexivity.
Defined.

(** A stored code that ends with a line feed matches the request ["42"],
    the composer returns a PDF, and the header line then raises. *)
Example line_break_in_code_raises :
  exists e,
    run (demo_net [newline_stop]) [] (info (L := demo) 0%Z "42")
    = (Raise e, [wfs_request]) /\
    exn_cls e = BadHeaderError.
Proof. eexists. split; reflexivity. Qed.
